(** * ControleGarantias: the product registration form (CadastroComponent)

    A shallow embedding of [src/app/produto/cadastro/cadastro.component.ts]:
    the three field validators, the warranty end date calculation and the
    create/edit submission flow, together with the parts of the JavaScript
    and Angular semantics the component relies on ([Number], [isNaN],
    truthiness, [Date], [FormGroup.value], [FormGroup.patchValue]). *)

From Stdlib Require Import ZArith Lia Bool Ascii String List.
From stdpp Require Import gmap strings list.

Open Scope Z_scope.

(** ** JavaScript numbers

    A Number is an IEEE 754 binary64: NaN, an infinity, or a finite value
    [(-1)^neg * m * 2^e].  Zero comes with a sign, as in JavaScript. *)
Module JsNumber.

Inductive number :=
| NaN
| Infinity (neg : bool)
| Finite (neg : bool) (m : Z) (e : Z).

Definition isNaN (x : number) : bool :=
  match x with NaN => true | _ => false end.

Definition isFinite (x : number) : bool :=
  match x with Finite _ _ _ => true | _ => false end.

Definition isZero (x : number) : bool :=
  match x with Finite _ m _ => m =? 0 | _ => false end.

(** [floor (log2 (n / d))] for [0 < n] and [0 < d]. *)
Definition ilog2 (n d : Z) : Z :=
  let e0 := Z.log2 n - Z.log2 d in
  let ge := if 0 <=? e0 then d * 2 ^ e0 <=? n else d <=? n * 2 ^ (- e0) in
  if ge then e0 else e0 - 1.

(** Round the non-negative rational [n / d] to the nearest binary64, ties
    to even, with sign [neg]; overflow gives an infinity.  The result is
    normalised: 53 significant bits, or exponent -1074 for subnormals, so
    that equal numbers other than NaN are equal terms. *)
Definition round (neg : bool) (n d : Z) : number :=
  if n =? 0 then Finite neg 0 0
  else
    let t := Z.max (ilog2 n d - 52) (-1074) in
    let num := if 0 <=? t then n else n * 2 ^ (- t) in
    let den := if 0 <=? t then d * 2 ^ t else d in
    let q := num / den in
    let r := num mod den in
    let up := (den <? 2 * r) || ((den =? 2 * r) && Z.odd q) in
    let m := if up then q + 1 else q in
    if (971 <? t) || ((t =? 971) && (2 ^ 53 <=? m)) then Infinity neg
    else if m =? 0 then Finite neg 0 0
    else if m =? 2 ^ 53 then Finite neg (2 ^ 52) (t + 1)
    else Finite neg m t.

Definition of_Z (z : Z) : number := round (z <? 0) (Z.abs z) 1.

(** The signed numerator of a finite value at exponent [e0 <= e]. *)
Definition scaled (neg : bool) (m e e0 : Z) : Z :=
  (if neg then -1 else 1) * m * 2 ^ (e - e0).

(** Number::add *)
Definition add (x y : number) : number :=
  match x, y with
  | NaN, _ | _, NaN => NaN
  | Infinity a, Infinity b => if Bool.eqb a b then Infinity a else NaN
  | Infinity a, Finite _ _ _ => Infinity a
  | Finite _ _ _, Infinity b => Infinity b
  | Finite sx mx ex, Finite sy my ey =>
      let e0 := Z.min ex ey in
      let s := scaled sx mx ex e0 + scaled sy my ey e0 in
      if s =? 0 then Finite (sx && sy) 0 0
      else if 0 <=? e0 then round (s <? 0) (Z.abs s * 2 ^ e0) 1
      else round (s <? 0) (Z.abs s) (2 ^ (- e0))
  end.

(** ToIntegerOrInfinity, for the callers that reject non-finite arguments
    first: [None] stands for NaN and the infinities. *)
Definition truncate (x : number) : option Z :=
  match x with
  | Finite neg m e =>
      let a := if 0 <=? e then m * 2 ^ e else m / 2 ^ (- e) in
      Some (if neg then - a else a)
  | _ => None
  end.

(** *** StringToNumber

    Strings are sequences of code units; a character of a Rocq string is
    read as the code unit with the same number (0 to 255). *)

Definition code (c : ascii) : Z := Z.of_N (N_of_ascii c).

(** WhiteSpace and LineTerminator among the code units 0 to 255: TAB, LF,
    VT, FF, CR, SP and NBSP. *)
Definition isStrWhiteSpaceChar (c : ascii) : bool :=
  let n := code c in
  ((9 <=? n) && (n <=? 13)) || (n =? 32) || (n =? 160).

Fixpoint trimStart (cs : list ascii) : list ascii :=
  match cs with
  | c :: cs' => if isStrWhiteSpaceChar c then trimStart cs' else cs
  | [] => []
  end.

Definition trim (cs : list ascii) : list ascii :=
  rev (trimStart (rev (trimStart cs))).

Definition digitValue (radix : Z) (c : ascii) : option Z :=
  let n := code c in
  let v := if (48 <=? n) && (n <=? 57) then n - 48
           else if (97 <=? n) && (n <=? 102) then n - 87
           else if (65 <=? n) && (n <=? 70) then n - 55
           else radix in
  if v <? radix then Some v else None.

(** The longest prefix of digits in [radix], as digit values, and the rest. *)
Fixpoint spanDigits (radix : Z) (cs : list ascii) : list Z * list ascii :=
  match cs with
  | c :: cs' =>
      match digitValue radix c with
      | Some v => let '(ds, rest) := spanDigits radix cs' in (v :: ds, rest)
      | None => ([], cs)
      end
  | [] => ([], [])
  end.

Definition digitsValue (radix : Z) (ds : list Z) : Z :=
  fold_left (fun acc d => acc * radix + d) ds 0.

(** NonDecimalIntegerLiteral after its prefix: one digit or more, and
    nothing else. *)
Definition nonDecimal (radix : Z) (cs : list ascii) : number :=
  match spanDigits radix cs with
  | ((_ :: _) as ds, []) => round false (digitsValue radix ds) 1
  | _ => NaN
  end.

(** ExponentPart_opt at the end of a decimal literal: [Some] of the
    exponent, [None] when the rest is not an exponent part. *)
Definition exponentPart (cs : list ascii) : option Z :=
  match cs with
  | [] => Some 0
  | c :: cs' =>
      if (code c =? 101) || (code c =? 69) then
        let '(neg, ds) :=
          match cs' with
          | s :: cs'' =>
              if code s =? 43 then (false, cs'')
              else if code s =? 45 then (true, cs'')
              else (false, cs')
          | [] => (false, [])
          end in
        match spanDigits 10 ds with
        | ((_ :: _) as es, []) =>
            Some (if neg then - digitsValue 10 es else digitsValue 10 es)
        | _ => None
        end
      else None
  end.

(** StrUnsignedDecimalLiteral with the sign already read. *)
Definition unsignedDecimal (neg : bool) (cs : list ascii) : number :=
  if String.eqb (string_of_list_ascii cs) "Infinity" then Infinity neg
  else
    let '(ip, r1) := spanDigits 10 cs in
    let '(fp, r2) :=
      match r1 with
      | c :: r => if code c =? 46 then spanDigits 10 r else ([], r1)
      | [] => ([], r1)
      end in
    match ip ++ fp, exponentPart r2 with
    | (_ :: _) as ds, Some ex =>
        let mv := digitsValue 10 ds in
        let e10 := ex - Z.of_nat (length fp) in
        if 0 <=? e10 then round neg (mv * 10 ^ e10) 1
        else round neg mv (10 ^ (- e10))
    | _, _ => NaN
    end.

Definition strNumericLiteral (cs : list ascii) : number :=
  match cs with
  | z :: x :: rest =>
      if (code z =? 48) && ((code x =? 120) || (code x =? 88))
      then nonDecimal 16 rest
      else if (code z =? 48) && ((code x =? 111) || (code x =? 79))
      then nonDecimal 8 rest
      else if (code z =? 48) && ((code x =? 98) || (code x =? 66))
      then nonDecimal 2 rest
      else if code z =? 43 then unsignedDecimal false (x :: rest)
      else if code z =? 45 then unsignedDecimal true (x :: rest)
      else unsignedDecimal false cs
  | _ => unsignedDecimal false cs
  end.

Definition StringToNumber (s : string) : number :=
  match trim (list_ascii_of_string s) with
  | [] => Finite false 0 0
  | cs => strNumericLiteral cs
  end.

(** Number::toString for the integers a month index can be. *)
Definition digitChar (d : Z) : ascii := ascii_of_N (Z.to_N (48 + d)).

Fixpoint natDigits (fuel : nat) (z : Z) (acc : list ascii) : list ascii :=
  match fuel with
  | O => acc
  | S fuel' =>
      if z <? 10 then digitChar z :: acc
      else natDigits fuel' (z / 10) (digitChar (z mod 10) :: acc)
  end.

Definition intToString (z : Z) : string :=
  let ds := string_of_list_ascii (natDigits (S (Z.to_nat (Z.log2 (Z.abs z)))) (Z.abs z) []) in
  if z <? 0 then String "-" ds else ds.

End JsNumber.
Export JsNumber.

(** ** JavaScript dates: time values and the calendar (ECMA-262, 21.4.1)

    A time value is a number of milliseconds since the epoch, or NaN
    ([None]).  The calendar functions below are the ones of the standard,
    on a finite time value. *)
Module JsDate.

Definition msPerDay : Z := 86400000.

Definition Day (t : Z) : Z := t / msPerDay.
Definition TimeWithinDay (t : Z) : Z := t mod msPerDay.

Definition isLeapYear (y : Z) : bool :=
  ((y mod 4 =? 0) && negb (y mod 100 =? 0)) || (y mod 400 =? 0).

Definition DaysInYear (y : Z) : Z := if isLeapYear y then 366 else 365.

Definition DayFromYear (y : Z) : Z :=
  365 * (y - 1970) + (y - 1969) / 4 - (y - 1901) / 100 + (y - 1601) / 400.

(** The largest [y] with [DayFromYear y <= d]: an estimate from the mean
    length of a year, corrected by at most one. *)
Definition YearFromDay (d : Z) : Z :=
  let y := 1970 + (d * 400) / 146097 in
  if d <? DayFromYear y then y - 1
  else if DayFromYear (y + 1) <=? d then y + 1
  else y.

Definition YearFromTime (t : Z) : Z := YearFromDay (Day t).

Definition DayWithinYear (t : Z) : Z := Day t - DayFromYear (YearFromTime t).

(** The day within the year on which month [m] (0 to 11) starts; month 12
    stands for the start of the next year. *)
Definition monthStart (leap : bool) (m : Z) : Z :=
  let l := if leap then 1 else 0 in
  if m <=? 0 then 0
  else if m =? 1 then 31
  else if m =? 2 then 59 + l
  else if m =? 3 then 90 + l
  else if m =? 4 then 120 + l
  else if m =? 5 then 151 + l
  else if m =? 6 then 181 + l
  else if m =? 7 then 212 + l
  else if m =? 8 then 243 + l
  else if m =? 9 then 273 + l
  else if m =? 10 then 304 + l
  else if m =? 11 then 334 + l
  else 365 + l.

Definition monthOfDay (leap : bool) (d : Z) : Z :=
  if d <? monthStart leap 1 then 0
  else if d <? monthStart leap 2 then 1
  else if d <? monthStart leap 3 then 2
  else if d <? monthStart leap 4 then 3
  else if d <? monthStart leap 5 then 4
  else if d <? monthStart leap 6 then 5
  else if d <? monthStart leap 7 then 6
  else if d <? monthStart leap 8 then 7
  else if d <? monthStart leap 9 then 8
  else if d <? monthStart leap 10 then 9
  else if d <? monthStart leap 11 then 10
  else 11.

Definition MonthFromTime (t : Z) : Z :=
  monthOfDay (isLeapYear (YearFromTime t)) (DayWithinYear t).

Definition DateFromTime (t : Z) : Z :=
  DayWithinYear t
  - monthStart (isLeapYear (YearFromTime t)) (MonthFromTime t) + 1.

Definition DaysInMonth (y m : Z) : Z :=
  monthStart (isLeapYear y) (m + 1) - monthStart (isLeapYear y) m.

(** MakeDay on integers: the day number of day [date] of month [month] of
    [year], where [month] and [date] may lie outside their usual range. *)
Definition MakeDay (year month date : Z) : Z :=
  let ym := year + month / 12 in
  let mn := month mod 12 in
  DayFromYear ym + monthStart (isLeapYear ym) mn + date - 1.

Definition MakeTime (hour min sec ms : Z) : Z :=
  hour * 3600000 + min * 60000 + sec * 1000 + ms.

Definition MakeDate (day time : Z) : Z := day * msPerDay + time.

(** TimeClip: a time value further than 8.64e15 ms from the epoch is NaN. *)
Definition TimeClip (t : Z) : option Z :=
  if 8640000000000000 <? Z.abs t then None else Some t.

End JsDate.
Export JsDate.

(** ** Values, Date objects and the heap

    The values a control of this form holds are primitives or Date
    objects.  A Date object is a mutable cell: [VDate l] is a reference to
    cell [l] of the heap, which stores the object's time value. *)
Module JsValue.

Inductive jsval :=
| VUndefined
| VNull
| VBool (b : bool)
| VNumber (x : number)
| VString (s : string)
| VDate (l : nat).

Abbreviation heap := (list (option Z)).

(** The time value of the Date object at [l]. *)
Definition dateValue (h : heap) (l : nat) : option Z :=
  match h !! l with
  | Some tv => tv
  | None => None
  end.

Definition timeToNumber (tv : option Z) : number :=
  match tv with
  | Some t => of_Z t
  | None => NaN
  end.

Definition ToBoolean (v : jsval) : bool :=
  match v with
  | VUndefined | VNull => false
  | VBool b => b
  | VNumber x => negb (isZero x || isNaN x)
  | VString s => negb (String.eqb s "")
  | VDate _ => true
  end.

(** ToNumber; a Date object converts through [valueOf], its time value. *)
Definition ToNumber (h : heap) (v : jsval) : number :=
  match v with
  | VUndefined => NaN
  | VNull => Finite false 0 0
  | VBool b => if b then of_Z 1 else Finite false 0 0
  | VNumber x => x
  | VString s => StringToNumber s
  | VDate l => timeToNumber (dateValue h l)
  end.

(** Number::toString of the result of [getMonth]: an integer or NaN. *)
Definition monthToString (x : number) : string :=
  match truncate x with
  | Some z => intToString z
  | None => "NaN"
  end.

(** [ToNumber (x + v)] where [x] is the result of [getMonth].  With a
    string the operator concatenates; a Date object converts to its
    [toString] text ("Mon Jan 15 2024 ..." or "Invalid Date"), and a month
    index followed by that text is not a numeric literal. *)
Definition plusToNumber (h : heap) (x : number) (v : jsval) : number :=
  match v with
  | VString s => StringToNumber (monthToString x ++ s)
  | VDate _ => NaN
  | _ => add x (ToNumber h v)
  end.

(** TimeClip of a Number. *)
Definition clipNumber (x : number) : option Z :=
  match truncate x with
  | Some t => TimeClip t
  | None => None
  end.

(** *** The Date Time String Format (ECMA-262, 21.4.1.32) *)

Fixpoint takeDigits (n : nat) (acc : Z) (cs : list ascii)
  : option (Z * list ascii) :=
  match n with
  | O => Some (acc, cs)
  | S n' =>
      match cs with
      | c :: cs' =>
          match digitValue 10 c with
          | Some d => takeDigits n' (acc * 10 + d) cs'
          | None => None
          end
      | [] => None
      end
  end.

(** [YYYY], or a sign and [YYYYYY]; [-000000] is not a year. *)
Definition isoYear (cs : list ascii) : option (Z * list ascii) :=
  match cs with
  | c :: cs' =>
      if code c =? 43 then takeDigits 6 0 cs'
      else if code c =? 45 then
        match takeDigits 6 0 cs' with
        | Some (y, r) => if y =? 0 then None else Some (- y, r)
        | None => None
        end
      else takeDigits 4 0 cs
  | [] => None
  end.

(** An optional [-NN] field with [lo <= NN <= hi]; absent, it is [lo]. *)
Definition isoDashField (lo hi : Z) (cs : list ascii)
  : option (option Z * list ascii) :=
  match cs with
  | c :: cs' =>
      if code c =? 45 then
        match takeDigits 2 0 cs' with
        | Some (v, r) =>
            if (lo <=? v) && (v <=? hi) then Some (Some v, r) else None
        | None => None
        end
      else Some (None, cs)
  | [] => Some (None, [])
  end.

(** A [:NN] field with [NN <= hi]. *)
Definition isoColonField (hi : Z) (cs : list ascii)
  : option (Z * list ascii) :=
  match cs with
  | c :: cs' =>
      if code c =? 58 then
        match takeDigits 2 0 cs' with
        | Some (v, r) => if v <=? hi then Some (v, r) else None
        | None => None
        end
      else None
  | [] => None
  end.

(** The day number of a date-only form, and what follows it. *)
Definition isoDate (cs : list ascii) : option (Z * list ascii) :=
  match isoYear cs with
  | Some (y, r1) =>
      match isoDashField 1 12 r1 with
      | Some (None, r2) => Some (MakeDay y 0 1, r2)
      | Some (Some m, r2) =>
          match isoDashField 1 31 r2 with
          | Some (None, r3) => Some (MakeDay y (m - 1) 1, r3)
          | Some (Some d, r3) => Some (MakeDay y (m - 1) d, r3)
          | None => None
          end
      | None => None
      end
  | None => None
  end.

(** [HH:mm], [HH:mm:ss] or [HH:mm:ss.sss] as milliseconds, and the rest.
    Hour 24 is the end of the day only. *)
Definition isoTime (cs : list ascii) : option (Z * list ascii) :=
  match takeDigits 2 0 cs with
  | Some (hh, r1) =>
      match isoColonField 59 r1 with
      | Some (mi, r2) =>
          let '(ss, ms, r4) :=
            match isoColonField 59 r2 with
            | Some (s, r3) =>
                match r3 with
                | c :: r3' =>
                    if code c =? 46 then
                      match takeDigits 3 0 r3' with
                      | Some (f, r) => (s, Some f, r)
                      | None => (s, None, r3)
                      end
                    else (s, Some 0, r3)
                | [] => (s, Some 0, r3)
                end
            | None => (0, Some 0, r2)
            end in
          match ms with
          | Some f =>
              if (hh <=? 23) || ((hh =? 24) && (mi =? 0) && (ss =? 0) && (f =? 0))
              then Some (MakeTime hh mi ss f, r4)
              else None
          | None => None
          end
      | None => None
      end
  | None => None
  end.

(** The UTC offset at the end of a date-time form, in milliseconds:
    [Some None] when absent (local time), [None] when malformed. *)
Definition isoOffset (cs : list ascii) : option (option Z) :=
  match cs with
  | [] => Some None
  | c :: r =>
      if (code c =? 90) && (match r with [] => true | _ => false end)
      then Some (Some 0)
      else if (code c =? 43) || (code c =? 45) then
        match takeDigits 2 0 r with
        | Some (hh, r1) =>
            match isoColonField 59 r1 with
            | Some (mi, []) =>
                if hh <=? 23 then
                  let off := MakeTime hh mi 0 0 in
                  Some (Some (if code c =? 45 then - off else off))
                else None
            | _ => None
            end
        | None => None
        end
      else None
  end.

End JsValue.
Export JsValue.

(** ** The host: time zone and non-standard date strings

    Two things are left to the JavaScript engine and its environment: the
    offset of local time, and what [Date.parse] makes of a string that is
    not in the Date Time String Format. *)
Section Host.

Variable LocalTZA : Z -> bool -> Z.
Variable fallbackDateParse : string -> option Z.

Definition LocalTime (t : Z) : Z := t + LocalTZA t true.
Definition UTC (t : Z) : Z := t - LocalTZA t false.

(** A string in the Date Time String Format: a date-only form is UTC, a
    date-time form without offset is local time. *)
Definition isoDateParse (s : string) : option Z :=
  match isoDate (list_ascii_of_string s) with
  | Some (day, []) => Some (MakeDate day 0)
  | Some (day, c :: r) =>
      if code c =? 84 then
        match isoTime r with
        | Some (time, r') =>
            match isoOffset r' with
            | Some (Some off) => Some (MakeDate day time - off)
            | Some None => Some (UTC (MakeDate day time))
            | None => None
            end
        | None => None
        end
      else None
  | None => None
  end.

(** Date.parse *)
Definition DateParse (s : string) : option Z :=
  match isoDateParse s with
  | Some t => TimeClip t
  | None =>
      match fallbackDateParse s with
      | Some t => TimeClip t
      | None => None
      end
  end.

(** The time value [new Date(v)] is created with. *)
Definition newDateValue (h : heap) (v : jsval) : option Z :=
  match v with
  | VDate l =>
      match dateValue h l with
      | Some t => TimeClip t
      | None => None
      end
  | VString s => DateParse s
  | _ => clipNumber (ToNumber h v)
  end.

(** [new Date(v)]: a fresh cell at the end of the heap. *)
Definition newDate (h : heap) (v : jsval) : heap * nat :=
  (h ++ [newDateValue h v], length h).

(** Date.prototype.getTime *)
Definition getTime (h : heap) (l : nat) : number :=
  timeToNumber (dateValue h l).

(** Date.prototype.getMonth *)
Definition getMonth (h : heap) (l : nat) : number :=
  match dateValue h l with
  | Some t => of_Z (MonthFromTime (LocalTime t))
  | None => NaN
  end.

(** The time value [setMonth(month)] stores in a Date of time value [t]. *)
Definition setMonthValue (t : Z) (month : number) : option Z :=
  let lt := LocalTime t in
  match truncate month with
  | Some m =>
      TimeClip (UTC (MakeDate (MakeDay (YearFromTime lt) m (DateFromTime lt))
                              (TimeWithinDay lt)))
  | None => None
  end.

(** Date.prototype.setMonth with one argument: updates the cell [l] in
    place; an invalid Date stays invalid. *)
Definition setMonth (h : heap) (l : nat) (month : number) : heap :=
  match dateValue h l with
  | Some t => <[l := setMonthValue t month]> h
  | None => h
  end.

End Host.

(** ** Angular reactive forms: what the component uses of [FormGroup] *)
Module Forms.

Record control := Control { cvalue : jsval; cdisabled : bool }.

(** A group keeps its controls and, in its [value] property, an object
    with the values of the enabled controls.  That object is rebuilt when
    a control changes; between two changes every read of [value] returns
    the same object, so a write to one of its properties stays in it. *)
Record FormGroup := Group {
  controls : gmap string control;
  value : gmap string jsval
}.

(** [_allControlsDisabled]: the group is disabled when it has controls and
    all of them are disabled. *)
Definition allControlsDisabled (cs : gmap string control) : bool :=
  forallb (fun kc => cdisabled (snd kc)) (map_to_list cs)
  && negb (bool_decide (cs = ∅)).

(** [_reduceValue]: the values of the enabled controls, or of all of them
    when the group itself is disabled. *)
Definition reduceValue (cs : gmap string control) : gmap string jsval :=
  if allControlsDisabled cs then cvalue <$> cs
  else omap (fun c => if cdisabled c then None else Some (cvalue c)) cs.

(** [FormBuilder.group] *)
Definition group (cs : list (string * control)) : FormGroup :=
  let m : gmap string control := list_to_map cs in
  Group m (reduceValue m).

(** [FormGroup.patchValue]: every property that names a control sets that
    control's value, the others are ignored; then [value] is rebuilt. *)
Definition patchValue (obj : gmap string jsval) (f : FormGroup) : FormGroup :=
  let cs := map_imap (fun k c =>
              Some (match obj !! k with
                    | Some v => Control v (cdisabled c)
                    | None => c
                    end)) (controls f) in
  Group cs (reduceValue cs).

(** Reading a property of an object: absent, it is [undefined]. *)
Definition prop (obj : gmap string jsval) (k : string) : jsval :=
  match obj !! k with
  | Some v => v
  | None => VUndefined
  end.

End Forms.
Export Forms.

(** ** The component *)

(** What the component does to its collaborators, in order. *)
Inductive event :=
| GetProdutoById (id : number)
| UpdateProduto (produto : gmap string jsval)
| AddProduto (produto : gmap string jsval)
| SnackBarOpen (message action : string) (duration : Z)
| DialogCloseAll
| ConsoleError (error : jsval).

Record state := State {
  store : heap;
  produtoForm : FormGroup;
  produtoId : number;
  isEditing : bool;
  trace : list event
}.

(** The subscription [onSubmit] leaves behind. *)
Inductive pending := PendingUpdate | PendingAdd.

(** What an observable of the service delivers. *)
Inductive outcome := Next | Error (error : jsval).

Definition emit (e : event) (st : state) : state :=
  State (store st) (produtoForm st) (produtoId st) (isEditing st)
        (trace st ++ [e]).

Definition setForm (f : FormGroup) (st : state) : state :=
  State (store st) f (produtoId st) (isEditing st) (trace st).

(** The property initialisers of the class. *)
Definition initialForm : FormGroup :=
  group [("nome", Control (VString "") false);
         ("dataCompra", Control (VString "") false);
         ("duracaoGarantiaMeses", Control (VString "") false);
         ("dataFimGarantia", Control (VString "") true)].

(** A component just constructed: no Date object yet, nothing done. *)
Definition initialState : state :=
  State [] initialForm (Finite false 0 0) false [].

(** The form [ngOnInit] replaces the first one with; its validators are
    the functions below and are not part of the state. *)
Definition createForm (st : state) : state :=
  setForm (group [("id", Control (VString "") false);
                  ("nome", Control (VString "") false);
                  ("dataCompra", Control (VString "") false);
                  ("duracaoGarantiaMeses", Control (VString "") false)]) st.

(** The function given to [switchMap], run on the route parameters. *)
Definition checkEditMode (params : gmap string jsval) (st : state) : state :=
  if ToBoolean (prop params "id") then
    let id := ToNumber (store st) (prop params "id") in
    emit (GetProdutoById id)
         (State (store st) (produtoForm st) id true (trace st))
  else st.

(** The subscriber of [checkEditMode], run when the product arrives
    ([None]: the service delivered no object). *)
Definition produtoLoaded (produto : option (gmap string jsval)) (st : state)
  : state :=
  match produto with
  | Some p =>
      if isEditing st then setForm (patchValue p (produtoForm st)) st else st
  | None => st
  end.

Definition ngOnInit (params : gmap string jsval) (st : state) : state :=
  checkEditMode params (createForm st).

Abbreviation ValidationErrors := (gmap string string).

Definition numberValidator (h : heap) (v : jsval) : option ValidationErrors :=
  if isNaN (ToNumber h v)
  then Some {[ "invalidNumber" := "Por favor, insira um número válido." ]}
  else None.

Definition stringValidator (v : jsval) : option ValidationErrors :=
  match v with
  | VString _ => None
  | _ => Some {[ "invalidString" := "Por favor, insira um texto válido." ]}
  end.

(** [produto] is the form's value object, not a copy of it: in edit mode
    the assignment to [produto.id] writes into that object. *)
Definition onSubmit (st : state) : state * pending :=
  let produto := value (produtoForm st) in
  if isEditing st then
    let produto' := <["id" := VNumber (produtoId st)]> produto in
    (emit (UpdateProduto produto')
          (setForm (Group (controls (produtoForm st)) produto') st),
     PendingUpdate)
  else (emit (AddProduto produto) st, PendingAdd).

(** The two callbacks given to [subscribe] in [onSubmit]. *)
Definition submitted (p : pending) (o : outcome) (st : state) : state :=
  match p, o with
  | PendingUpdate, Next =>
      emit DialogCloseAll
           (emit (SnackBarOpen "Produto atualizado com sucesso" "Fechar" 2000) st)
  | PendingUpdate, Error e =>
      emit (SnackBarOpen "Erro ao atualizar o produto" "Fechar" 2000)
           (emit (ConsoleError e) st)
  | PendingAdd, Next =>
      emit DialogCloseAll
           (emit (SnackBarOpen "Produto cadastrado com sucesso" "Fechar" 2000) st)
  | PendingAdd, Error e =>
      emit (SnackBarOpen "Erro ao cadastrar o produto" "Fechar" 2000)
           (emit (ConsoleError e) st)
  end.

Section Component.

Variable LocalTZA : Z -> bool -> Z.
Variable fallbackDateParse : string -> option Z.

(** The Date object the validator builds is dropped on return; only its
    time value matters. *)
Definition dateValidator (h : heap) (v : jsval) : option ValidationErrors :=
  if isNaN (timeToNumber (newDateValue LocalTZA fallbackDateParse h v))
  then Some {[ "invalidDate" := "Por favor, insira uma data válida." ]}
  else None.

(** The guard is JavaScript truthiness of the two values read from the
    form's value object. *)
Definition calcularDataFimGarantia (st : state) : state :=
  let dataCompra := prop (value (produtoForm st)) "dataCompra" in
  let duracaoMeses := prop (value (produtoForm st)) "duracaoGarantiaMeses" in
  if ToBoolean dataCompra && ToBoolean duracaoMeses then
    let '(h1, dataFimGarantia) :=
      newDate LocalTZA fallbackDateParse (store st) dataCompra in
    let h2 := setMonth LocalTZA h1 dataFimGarantia
                (plusToNumber h1 (getMonth LocalTZA h1 dataFimGarantia)
                              duracaoMeses) in
    State h2
          (patchValue {[ "dataFimGarantia" := VDate dataFimGarantia ]}
                      (produtoForm st))
          (produtoId st) (isEditing st) (trace st)
  else st.

End Component.

(** * Vocabulary of the properties *)

Definition isServiceCall (e : event) : bool :=
  match e with
  | GetProdutoById _ | UpdateProduto _ | AddProduto _ => true
  | _ => false
  end.

Definition successMessage (p : pending) : string :=
  match p with
  | PendingUpdate => "Produto atualizado com sucesso"
  | PendingAdd => "Produto cadastrado com sucesso"
  end.

(** [x] is the integer [a], held exactly. *)
Definition holds (x : number) (a : Z) : Prop :=
  exists neg m e,
    x = Finite neg m e /\ e <= 0 /\ (if neg then - m else m) = a * 2 ^ (- e).



(** The warranty end date in the words of the specification: the date [n]
    calendar months after day [d] of month [m] of year [y].  The months
    carry into the year, and a day past the end of the target month rolls
    over into the following month. *)
Definition advanceMonths (n y m d : Z) : Z * Z * Z :=
  let y' := y + (m + n) / 12 in
  let m' := (m + n) mod 12 in
  if d <=? DaysInMonth y' m' then (y', m', d)
  else (y', m' + 1, d - DaysInMonth y' m').

(** ** Hosts and sample states *)

(** Two hosts to run the component on: UTC, and the fixed offset of
    Brasília (three hours behind UTC); neither reads other date formats. *)
Definition utcZone : Z -> bool -> Z := fun _ _ => 0.
Definition brasiliaZone : Z -> bool -> Z := fun _ _ => -10800000.
Definition isoOnly : string -> option Z := fun _ => None.

(** A component opened on the route parameter [id = "7"] whose form then
    received another id. *)
Definition editing7 : state :=
  let st := ngOnInit {[ "id" := VString "7" ]} initialState in
  setForm (patchValue {[ "id" := VString "99" ]} (produtoForm st)) st.

(** A component opened without route parameter, its form filled in. *)
Definition creating : state :=
  let st := ngOnInit ∅ initialState in
  setForm (patchValue {[ "id" := VString "5" ]} (produtoForm st)) st.

(** A component, not yet initialised, whose form holds the given purchase
    date and duration. *)
Definition fillIn (f : FormGroup) (dataCompra duracaoMeses : jsval) : state :=
  setForm (patchValue {[ "dataCompra" := dataCompra;
                         "duracaoGarantiaMeses" := duracaoMeses ]} f)
          initialState.

Definition zeroMonths : state :=
  fillIn initialForm (VString "2024-01-15") (VNumber (of_Z 0)).

Definition twelveMonths : state :=
  fillIn initialForm (VString "2024-01-15") (VNumber (of_Z 12)).

Definition endOfJanuary : state :=
  fillIn initialForm (VString "2024-01-31") (VNumber (of_Z 1)).

(** The purchase date held as a Date object, the first of the heap. *)
Definition boughtOnDate : state :=
  State [Some 1705276800000]
        (produtoForm (fillIn initialForm (VDate 0) (VNumber (of_Z 12))))
        (Finite false 0 0) false [].

(** ** Texts and runs *)

Definition isDecimalDigit (c : ascii) : Prop := 48 <= code c <= 57.

Definition noWhiteSpace (cs : list ascii) : Prop :=
  Forall (fun c => isStrWhiteSpaceChar c = false) cs.

(** The names of the controls of the form built by [createForm]. *)
Definition formFields : list string :=
  ["id"; "nome"; "dataCompra"; "duracaoGarantiaMeses"].

(** A call of the service that carries no [dataFimGarantia]. *)
Definition withoutEndDate (e : event) : Prop :=
  match e with
  | UpdateProduto produto | AddProduto produto =>
      produto !! "dataFimGarantia" = None
  | _ => True
  end.

(** What happens to a component, one event at a time: Angular calls
    [ngOnInit]; the route emits parameters again; the fetched product
    arrives; an input of the template sets the value of a control;
    the calculation or the submission is triggered; the service answers
    a submission. *)
Inductive action :=
| Init (params : gmap string jsval)
| RouteParams (params : gmap string jsval)
| ProdutoLoaded (produto : option (gmap string jsval))
| Input (name : string) (v : jsval)
| Calcular
| Submit
| Response (p : pending) (o : outcome).

Definition isRouteAction (a : action) : bool :=
  match a with
  | Init _ | RouteParams _ => true
  | _ => false
  end.

Section Runs.

Variable LocalTZA : Z -> bool -> Z.
Variable fallbackDateParse : string -> option Z.

Definition step (a : action) (st : state) : state :=
  match a with
  | Init params => ngOnInit params st
  | RouteParams params => checkEditMode params st
  | ProdutoLoaded produto => produtoLoaded produto st
  | Input name v => setForm (patchValue {[ name := v ]} (produtoForm st)) st
  | Calcular => calcularDataFimGarantia LocalTZA fallbackDateParse st
  | Submit => fst (onSubmit st)
  | Response p o => submitted p o st
  end.

Definition run (actions : list action) (st : state) : state :=
  fold_left (fun s a => step a s) actions st.

End Runs.

(** The end date is kept out of the form's value: the control, if there
    is one, is disabled, and the group is not. *)
Definition endDateHidden (f : FormGroup) : Prop :=
  value f !! "dataFimGarantia" = None
  /\ (forall c, controls f !! "dataFimGarantia" = Some c -> cdisabled c = true)
  /\ allControlsDisabled (controls f) = false.

(** The form has no [dataFimGarantia], neither as a control nor in its
    value. *)
Definition noEndDate (f : FormGroup) : Prop :=
  controls f !! "dataFimGarantia" = None
  /\ value f !! "dataFimGarantia" = None.

(** The service answers any number of submissions, in any order. *)
Definition answered (rs : list (pending * outcome)) (st : state) : state :=
  fold_left (fun s r => submitted (fst r) (snd r) s) rs st.

Ltac divmod := Z.div_mod_to_equations; lia.

(** * Properties *)

(** ** The numeric validator *)

Lemma numberValidator_cases h v :
  numberValidator h v =
    if isNaN (ToNumber h v)
    then Some {[ "invalidNumber" := "Por favor, insira um número válido." ]}
    else None.
Proof. reflexivity. Qed.

Lemma not_NaN_cases x :
  isNaN x = false <-> isFinite x = true \/ exists neg, x = Infinity neg.
Proof.
  destruct x as [|neg|neg m e]; simpl; split; intros H; try done.
  - destruct H as [H|[neg H]]; discriminate.
  - right. by exists neg.
  - by left.
Qed.

(** C3, as stated, fails: the string [Infinity] passes the numeric
    validator although it does not convert to a finite number. *)
Lemma numberValidator_Infinity_not_finite :
  ~ (numberValidator [] (VString "Infinity") = None
     <-> isFinite (StringToNumber "Infinity") = true).
Proof.
  intros [Hpass _].
  assert (Hnone : numberValidator [] (VString "Infinity") = None)
    by (vm_compute; reflexivity).
  specialize (Hpass Hnone). vm_compute in Hpass. discriminate.
Qed.

(** C3, amended: for every string, the numeric validator passes exactly
    when the string converts to a number other than NaN, that is a finite
    number or an infinity; and it fails, with [invalidNumber], exactly
    when the string converts to NaN. *)
Theorem numberValidator_passes_iff_not_NaN (h : heap) (s : string) :
  (numberValidator h (VString s) = None
   <-> isFinite (StringToNumber s) = true
       \/ exists neg, StringToNumber s = Infinity neg)
  /\ (numberValidator h (VString s)
        = Some {[ "invalidNumber" := "Por favor, insira um número válido." ]}
      <-> StringToNumber s = NaN).
Proof.
  rewrite numberValidator_cases. simpl ToNumber.
  rewrite <- not_NaN_cases.
  destruct (StringToNumber s) as [|neg|neg m e]; simpl; split; split;
    intros H; try done.
Qed.

(** C10: the empty string passes the numeric validator. *)
Theorem numberValidator_empty_string (h : heap) :
  numberValidator h (VString "") = None.
Proof. reflexivity. Qed.

(** ** Submission *)

Lemma trace_emit e st : trace (emit e st) = trace st ++ [e].
Proof. reflexivity. Qed.

(** C2: in Edit mode with stored identifier 7, submission calls the update
    operation once, with a product whose [id] is 7 whatever the form
    holds, and whose other properties are those of the form's value.  The
    product is the form's value object itself, which now has that [id]. *)
Theorem onSubmit_edit_sends_stored_id (st : state) :
  isEditing st = true ->
  produtoId st = of_Z 7 ->
  exists produto,
    trace (fst (onSubmit st)) = trace st ++ [UpdateProduto produto]
    /\ snd (onSubmit st) = PendingUpdate
    /\ produto !! "id" = Some (VNumber (of_Z 7))
    /\ (forall k, k <> "id" -> produto !! k = value (produtoForm st) !! k)
    /\ value (produtoForm (fst (onSubmit st))) = produto.
Proof.
  intros Hedit Hid. unfold onSubmit. rewrite Hedit, Hid. simpl.
  eexists. repeat split.
  - apply lookup_insert_eq.
  - intros k Hk. by apply lookup_insert_ne.
Qed.

(** C5: in Create mode, submission calls the add operation once, with the
    form's value as it is: nothing is written to it, and the stored
    identifier plays no part. *)
Theorem onSubmit_create_sends_form_value (st : state) :
  isEditing st = false ->
  trace (fst (onSubmit st))
    = trace st ++ [AddProduto (value (produtoForm st))]
  /\ snd (onSubmit st) = PendingAdd
  /\ produtoForm (fst (onSubmit st)) = produtoForm st.
Proof.
  intros Hcreate. unfold onSubmit. rewrite Hcreate. by simpl.
Qed.

(** C6: when the operation of a submission fails, the error callback logs
    the error and opens a notification whose message differs from the one
    of success, calls the service no more, and changes neither the form
    nor the Date objects; over the whole submission the controls of the
    form keep their values. *)
Theorem submit_failure_reported (st : state) (e : jsval) :
  let st1 := fst (onSubmit st) in
  let p := snd (onSubmit st) in
  let st2 := submitted p (Error e) st1 in
  exists message,
    trace st2 = trace st1 ++ [ConsoleError e; SnackBarOpen message "Fechar" 2000]
    /\ message <> successMessage p
    /\ trace (submitted p Next st1)
         = trace st1 ++ [SnackBarOpen (successMessage p) "Fechar" 2000;
                         DialogCloseAll]
    /\ List.filter isServiceCall (trace st2)
         = List.filter isServiceCall (trace st1)
    /\ produtoForm st2 = produtoForm st1
    /\ store st2 = store st
    /\ controls (produtoForm st2) = controls (produtoForm st).
Proof.
  unfold onSubmit. destruct (isEditing st); simpl.
  - exists "Erro ao atualizar o produto". repeat split; try done.
    + by rewrite <- !app_assoc.
    + by rewrite <- !app_assoc.
    + rewrite !List.filter_app. simpl. by rewrite !app_nil_r.
  - exists "Erro ao cadastrar o produto". repeat split; try done.
    + by rewrite <- !app_assoc.
    + by rewrite <- !app_assoc.
    + rewrite !List.filter_app. simpl. by rewrite !app_nil_r.
Qed.

Lemma onSubmit_edit_sends_stored_id_witness :
  exists produto,
    trace (fst (onSubmit editing7)) = trace editing7 ++ [UpdateProduto produto]
    /\ snd (onSubmit editing7) = PendingUpdate
    /\ produto !! "id" = Some (VNumber (of_Z 7))
    /\ (forall k, k <> "id" -> produto !! k = value (produtoForm editing7) !! k)
    /\ value (produtoForm (fst (onSubmit editing7))) = produto.
Proof.
  apply (onSubmit_edit_sends_stored_id editing7); vm_compute; reflexivity.
Defined.

Lemma onSubmit_create_sends_form_value_witness :
  trace (fst (onSubmit creating))
    = trace creating ++ [AddProduto (value (produtoForm creating))]
  /\ snd (onSubmit creating) = PendingAdd
  /\ produtoForm (fst (onSubmit creating)) = produtoForm creating.
Proof.
  apply (onSubmit_create_sends_form_value creating); vm_compute; reflexivity.
Defined.

(** ** Initialisation *)

(** C8: without an [id] route parameter, initialisation calls no fetch and
    stays in Create mode; with one (a non-empty string, or any other value
    JavaScript takes as true), it enters Edit mode, stores the identifier
    as a number and calls the fetch once, with that number.  An [id] that
    is the empty string counts as none. *)
Theorem ngOnInit_fetch (params : gmap string jsval) (st : state) :
  (params !! "id" = None ->
     trace (ngOnInit params st) = trace st
     /\ isEditing (ngOnInit params st) = isEditing st
     /\ produtoId (ngOnInit params st) = produtoId st)
  /\ (forall v, params !! "id" = Some v -> ToBoolean v = true ->
     isEditing (ngOnInit params st) = true
     /\ produtoId (ngOnInit params st) = ToNumber (store st) v
     /\ trace (ngOnInit params st)
          = trace st ++ [GetProdutoById (ToNumber (store st) v)])
  /\ (params !! "id" = Some (VString "") ->
     trace (ngOnInit params st) = trace st
     /\ isEditing (ngOnInit params st) = isEditing st).
Proof.
  unfold ngOnInit, checkEditMode, prop. split; [|split].
  - intros Hid. by rewrite Hid.
  - intros v Hid Hv. by rewrite Hid, Hv.
  - intros Hid. by rewrite Hid.
Qed.

Lemma ngOnInit_fetch_witness :
  (trace (ngOnInit ∅ initialState) = []
   /\ isEditing (ngOnInit ∅ initialState) = false
   /\ produtoId (ngOnInit ∅ initialState) = Finite false 0 0)
  /\ (isEditing (ngOnInit {[ "id" := VString "7" ]} initialState) = true
      /\ produtoId (ngOnInit {[ "id" := VString "7" ]} initialState) = of_Z 7
      /\ trace (ngOnInit {[ "id" := VString "7" ]} initialState)
           = [GetProdutoById (of_Z 7)]).
Proof.
  split.
  - apply (proj1 (ngOnInit_fetch ∅ initialState)). reflexivity.
  - apply (proj1 (proj2 (ngOnInit_fetch {[ "id" := VString "7" ]} initialState))
                 (VString "7")); reflexivity.
Defined.

(** ** Numbers: integers are held exactly *)

Lemma ilog2_integer (V k : Z) :
  0 < V -> 0 <= k -> ilog2 (V * 2 ^ k) (2 ^ k) = Z.log2 V.
Proof.
  intros HV Hk. unfold ilog2.
  rewrite Z.log2_mul_pow2, Z.log2_pow2 by lia.
  replace (k + Z.log2 V - k) with (Z.log2 V) by lia.
  pose proof (Z.log2_nonneg V) as HL.
  pose proof (Z.log2_spec V HV) as [Hlo _].
  pose proof (Z.pow_pos_nonneg 2 k ltac:(lia) Hk) as Hp.
  destruct (Z.leb_spec 0 (Z.log2 V)); [|lia].
  destruct (Z.leb_spec (2 ^ k * 2 ^ Z.log2 V) (V * 2 ^ k)); [done|nia].
Qed.

(** Rounding is exact on an integer below [2^53], whatever power of two
    it is scaled by. *)
Lemma round_integer (neg : bool) (V k : Z) :
  0 < V < 2 ^ 53 -> 0 <= k ->
  round neg (V * 2 ^ k) (2 ^ k)
    = Finite neg (V * 2 ^ (52 - Z.log2 V)) (Z.log2 V - 52).
Proof.
  intros HV Hk. unfold round.
  pose proof (Z.pow_pos_nonneg 2 k ltac:(lia) Hk) as Hp.
  pose proof (Z.log2_nonneg V) as HL.
  assert (HL' : Z.log2 V < 53) by (apply Z.log2_lt_pow2; lia).
  destruct (Z.eqb_spec (V * 2 ^ k) 0) as [H0|_]; [nia|].
  rewrite ilog2_integer by lia.
  rewrite Z.max_l by lia.
  set (t := Z.log2 V - 52).
  assert (Hq : 0 < 2 ^ (52 - Z.log2 V)) by (apply Z.pow_pos_nonneg; lia).
  destruct (Z.leb_spec 0 t) as [Ht|Ht].
  - assert (Ht0 : t = 0) by lia. rewrite Ht0.
    replace (52 - Z.log2 V) with 0 by lia.
    rewrite Z.pow_0_r, !Z.mul_1_r, Z.div_mul, Z.mod_mul, Z.mul_0_r by lia.
    simpl. destruct (Z.ltb_spec (2 ^ k) 0); [lia|].
    destruct (Z.eqb_spec (2 ^ k) 0); [lia|]. simpl.
    destruct (Z.eqb_spec V 0); [lia|].
    destruct (Z.eqb_spec V (2 ^ 53)); [lia|done].
  - replace (- t) with (52 - Z.log2 V) by lia.
    replace (V * 2 ^ k * 2 ^ (52 - Z.log2 V))
      with (V * 2 ^ (52 - Z.log2 V) * 2 ^ k) by ring.
    rewrite Z.div_mul, Z.mod_mul, Z.mul_0_r by lia.
    simpl. destruct (Z.ltb_spec (2 ^ k) 0); [lia|].
    destruct (Z.eqb_spec (2 ^ k) 0); [lia|]. simpl.
    destruct (Z.ltb_spec 971 t); [lia|].
    destruct (Z.eqb_spec t 971); [lia|]. simpl.
    destruct (Z.eqb_spec (V * 2 ^ (52 - Z.log2 V)) 0); [nia|].
    destruct (Z.eqb_spec (V * 2 ^ (52 - Z.log2 V)) (2 ^ 53)) as [E|]; [|done].
    pose proof (Z.log2_spec V ltac:(lia)) as [_ Hhi].
    assert (Hsplit : 2 ^ 53 = 2 ^ Z.succ (Z.log2 V) * 2 ^ (52 - Z.log2 V))
      by (rewrite <- Z.pow_add_r by lia; f_equal; lia).
    nia.
Qed.

Lemma round_not_NaN (neg : bool) (n d : Z) : isNaN (round neg n d) = false.
Proof. unfold round. cbv zeta. repeat case_match; done. Qed.

Lemma holds_truncate x a : holds x a -> truncate x = Some a.
Proof.
  intros (neg & m & e & -> & He & Hm). simpl.
  assert (Hp : 0 < 2 ^ (- e)) by (apply Z.pow_pos_nonneg; lia).
  destruct (Z.leb_spec 0 e) as [H0|H0].
  - assert (e = 0) by lia. subst e. simpl in *. f_equal.
    destruct neg; lia.
  - f_equal. destruct neg.
    + replace m with (- a * 2 ^ (- e)) by lia. rewrite Z.div_mul by lia. lia.
    + rewrite Hm, Z.div_mul by lia. done.
Qed.

Lemma holds_round (V k n d : Z) (neg : bool) a :
  0 < V < 2 ^ 53 -> 0 <= k ->
  n = V * 2 ^ k -> d = 2 ^ k ->
  a = (if neg then - V else V) ->
  holds (round neg n d) a.
Proof.
  intros HV Hk -> -> ->. rewrite round_integer by done.
  pose proof (Z.log2_nonneg V) as HL.
  assert (HL' : Z.log2 V < 53) by (apply Z.log2_lt_pow2; lia).
  exists neg, (V * 2 ^ (52 - Z.log2 V)), (Z.log2 V - 52).
  split; [done|]. split; [lia|].
  replace (- (Z.log2 V - 52)) with (52 - Z.log2 V) by lia.
  destruct neg; lia.
Qed.

Lemma holds_of_Z a : Z.abs a < 2 ^ 53 -> holds (of_Z a) a.
Proof.
  intros Ha. unfold of_Z.
  destruct (Z.eq_dec a 0) as [->|Hne].
  - exists false, 0, 0. done.
  - apply (holds_round (Z.abs a) 0); [lia|lia|simpl; lia|done|].
    destruct (Z.ltb_spec a 0); lia.
Qed.

Lemma holds_add x y a b :
  holds x a -> holds y b -> Z.abs (a + b) < 2 ^ 53 ->
  holds (add x y) (a + b).
Proof.
  intros (sx & mx & ex & -> & Hex & Hx) (sy & my & ey & -> & Hey & Hy) Hab.
  unfold add.
  set (e0 := Z.min ex ey).
  assert (He0 : e0 <= 0) by lia.
  assert (Hsx : scaled sx mx ex e0 = a * 2 ^ (- e0)).
  { unfold scaled. replace (- e0) with (- ex + (ex - e0)) by lia.
    rewrite Z.pow_add_r by lia. destruct sx; lia. }
  assert (Hsy : scaled sy my ey e0 = b * 2 ^ (- e0)).
  { unfold scaled. replace (- e0) with (- ey + (ey - e0)) by lia.
    rewrite Z.pow_add_r by lia. destruct sy; lia. }
  rewrite Hsx, Hsy.
  assert (Hp : 0 < 2 ^ (- e0)) by (apply Z.pow_pos_nonneg; lia).
  replace (a * 2 ^ (- e0) + b * 2 ^ (- e0)) with ((a + b) * 2 ^ (- e0)) by ring.
  destruct (Z.eqb_spec ((a + b) * 2 ^ (- e0)) 0) as [H0|H0].
  - exists (sx && sy), 0, 0. split; [done|]. split; [lia|].
    assert (a + b = 0) by nia. destruct (sx && sy); lia.
  - assert (Hne : a + b <> 0) by nia.
    rewrite Z.abs_mul, (Z.abs_eq (2 ^ (- e0))) by lia.
    assert (Hsign : ((a + b) * 2 ^ (- e0) <? 0) = (a + b <? 0)).
    { destruct (Z.ltb_spec (a + b) 0), (Z.ltb_spec ((a + b) * 2 ^ (- e0)) 0);
        try done; nia. }
    rewrite Hsign.
    destruct (Z.leb_spec 0 e0) as [Hz|Hz].
    + assert (He : e0 = 0) by lia.
      apply (holds_round (Z.abs (a + b)) 0); [lia|lia| |done|].
      * rewrite He. simpl. lia.
      * destruct (Z.ltb_spec (a + b) 0); lia.
    + apply (holds_round (Z.abs (a + b)) (- e0)); [lia|lia|done|done|].
      destruct (Z.ltb_spec (a + b) 0); lia.
Qed.

(** ** The calendar *)

Lemma DayFromYear_next y : DayFromYear (y + 1) = DayFromYear y + DaysInYear y.
Proof.
  unfold DayFromYear, DaysInYear, isLeapYear.
  destruct (Z.eqb_spec (y mod 4) 0), (Z.eqb_spec (y mod 100) 0),
    (Z.eqb_spec (y mod 400) 0); simpl; divmod.
Qed.

Lemma YearFromDay_bounds d :
  DayFromYear (YearFromDay d) <= d < DayFromYear (YearFromDay d + 1).
Proof.
  unfold YearFromDay.
  destruct (Z.ltb_spec d (DayFromYear (1970 + d * 400 / 146097))) as [H|H].
  - unfold DayFromYear in *. divmod.
  - destruct (Z.leb_spec (DayFromYear (1970 + d * 400 / 146097 + 1)) d) as [H'|H'];
      unfold DayFromYear in *; divmod.
Qed.

Lemma DayFromYear_mono y y' : y <= y' -> DayFromYear y <= DayFromYear y'.
Proof. unfold DayFromYear. intros. divmod. Qed.

Lemma YearFromDay_unique d y :
  DayFromYear y <= d < DayFromYear (y + 1) -> YearFromDay d = y.
Proof.
  intros Hy. pose proof (YearFromDay_bounds d) as Hb.
  destruct (Z.lt_trichotomy (YearFromDay d) y) as [Hlt|[Heq|Hgt]]; [|done|].
  - pose proof (DayFromYear_mono (YearFromDay d + 1) y ltac:(lia)). lia.
  - pose proof (DayFromYear_mono (y + 1) (YearFromDay d) ltac:(lia)). lia.
Qed.

Lemma DayWithinYear_bounds t :
  0 <= DayWithinYear t < DaysInYear (YearFromTime t).
Proof.
  unfold DayWithinYear, YearFromTime.
  pose proof (YearFromDay_bounds (Day t)) as Hb.
  rewrite DayFromYear_next in Hb. lia.
Qed.

Lemma monthOfDay_bounds (leap : bool) (d : Z) :
  0 <= d < (if leap then 366 else 365) ->
  0 <= monthOfDay leap d <= 11
  /\ monthStart leap (monthOfDay leap d) <= d
  /\ d < monthStart leap (monthOfDay leap d + 1).
Proof.
  intros Hd. unfold monthOfDay.
  destruct leap; cbv [monthStart] in *; simpl in *;
    repeat (match goal with
            | |- context [?a <? ?b] => destruct (Z.ltb_spec a b)
            end; simpl; try lia).
Qed.

Lemma monthOfDay_unique (leap : bool) (d m : Z) :
  0 <= m <= 11 ->
  monthStart leap m <= d < monthStart leap (m + 1) ->
  monthOfDay leap d = m.
Proof.
  intros Hm Hd.
  assert (m = 0 \/ m = 1 \/ m = 2 \/ m = 3 \/ m = 4 \/ m = 5 \/ m = 6
          \/ m = 7 \/ m = 8 \/ m = 9 \/ m = 10 \/ m = 11) as Hcases by lia.
  unfold monthOfDay.
  destruct leap; repeat destruct Hcases as [->|Hcases]; try subst m;
    cbv [monthStart] in *; simpl in *;
    repeat (match goal with
            | |- context [?a <? ?b] => destruct (Z.ltb_spec a b)
            end; simpl; try lia).
Qed.

Lemma monthStart_mono (leap : bool) (m : Z) :
  0 <= m <= 11 -> 28 <= monthStart leap (m + 1) - monthStart leap m <= 31.
Proof.
  intros Hm.
  assert (m = 0 \/ m = 1 \/ m = 2 \/ m = 3 \/ m = 4 \/ m = 5 \/ m = 6
          \/ m = 7 \/ m = 8 \/ m = 9 \/ m = 10 \/ m = 11) as Hcases by lia.
  destruct leap; repeat destruct Hcases as [->|Hcases]; try subst m; cbv [monthStart]; simpl; lia.
Qed.

Lemma monthStart_bounds (leap : bool) (m : Z) :
  0 <= m <= 12 -> 0 <= monthStart leap m <= (if leap then 366 else 365).
Proof.
  intros Hm.
  assert (m = 0 \/ m = 1 \/ m = 2 \/ m = 3 \/ m = 4 \/ m = 5 \/ m = 6
          \/ m = 7 \/ m = 8 \/ m = 9 \/ m = 10 \/ m = 11 \/ m = 12) as Hcases by lia.
  destruct leap; repeat destruct Hcases as [->|Hcases]; try subst m; cbv [monthStart]; simpl; lia.
Qed.

(** The calendar fields of a time value form a date of the calendar. *)
Lemma fields_valid (t : Z) :
  0 <= MonthFromTime t <= 11
  /\ 1 <= DateFromTime t <= DaysInMonth (YearFromTime t) (MonthFromTime t).
Proof.
  unfold DateFromTime, MonthFromTime, DaysInMonth.
  pose proof (DayWithinYear_bounds t) as Hd. unfold DaysInYear in Hd.
  pose proof (monthOfDay_bounds (isLeapYear (YearFromTime t)) (DayWithinYear t) Hd).
  lia.
Qed.

Lemma fields_MakeDate (y m d tod : Z) :
  0 <= m <= 11 -> 1 <= d <= DaysInMonth y m -> 0 <= tod < msPerDay ->
  let t := MakeDate (MakeDay y m d) tod in
  YearFromTime t = y /\ MonthFromTime t = m /\ DateFromTime t = d
  /\ TimeWithinDay t = tod.
Proof.
  intros Hm Hd Htod t.
  assert (Hday : Day t = DayFromYear y + monthStart (isLeapYear y) m + d - 1).
  { unfold t, Day, MakeDate, MakeDay, msPerDay in *.
    replace (m / 12) with 0 by divmod. replace (m mod 12) with m by divmod.
    rewrite Z.add_0_r. divmod. }
  unfold DaysInMonth in Hd.
  pose proof (monthStart_bounds (isLeapYear y) m ltac:(lia)) as Hs.
  pose proof (monthStart_bounds (isLeapYear y) (m + 1) ltac:(lia)) as Hs'.
  assert (Hy : YearFromTime t = y).
  { unfold YearFromTime. apply YearFromDay_unique.
    rewrite DayFromYear_next, Hday. unfold DaysInYear.
    destruct (isLeapYear y); lia. }
  assert (Hw : DayWithinYear t = monthStart (isLeapYear y) m + d - 1).
  { unfold DayWithinYear. rewrite Hy, Hday. lia. }
  assert (Hmo : MonthFromTime t = m).
  { unfold MonthFromTime. rewrite Hy, Hw. apply monthOfDay_unique; lia. }
  repeat split; try done.
  - unfold DateFromTime. rewrite Hmo, Hy, Hw. lia.
  - unfold t, TimeWithinDay, MakeDate, msPerDay in *. divmod.
Qed.

Lemma MakeDate_fields (t : Z) :
  MakeDate (MakeDay (YearFromTime t) (MonthFromTime t) (DateFromTime t))
           (TimeWithinDay t) = t.
Proof.
  pose proof (fields_valid t) as [Hm _].
  unfold MakeDate, MakeDay, DateFromTime, DayWithinYear, TimeWithinDay, Day.
  replace (MonthFromTime t / 12) with 0 by divmod.
  replace (MonthFromTime t mod 12) with (MonthFromTime t) by divmod.
  rewrite Z.add_0_r.
  unfold msPerDay. divmod.
Qed.

(** ** The warranty end date *)

Section Calculation.

Variable LocalTZA : Z -> bool -> Z.
Variable fallbackDateParse : string -> option Z.

Local Abbreviation calcular := (calcularDataFimGarantia LocalTZA fallbackDateParse).
Local Abbreviation dateOf := (newDateValue LocalTZA fallbackDateParse).

Lemma calcular_guard_false (st : state) :
  ToBoolean (prop (value (produtoForm st)) "dataCompra")
  && ToBoolean (prop (value (produtoForm st)) "duracaoGarantiaMeses") = false ->
  calcular st = st.
Proof. intros H. unfold calcularDataFimGarantia. by rewrite H. Qed.

(** C9: with a valid purchase date and a duration that is the number 0,
    the calculation updates nothing: the whole state, [dataFimGarantia]
    included, is as before. *)
Theorem calcular_zero_duration_no_update (st : state) (x : number) (t : Z) :
  ToBoolean (prop (value (produtoForm st)) "dataCompra") = true ->
  dateOf (store st) (prop (value (produtoForm st)) "dataCompra") = Some t ->
  prop (value (produtoForm st)) "duracaoGarantiaMeses" = VNumber x ->
  isZero x = true ->
  calcular st = st.
Proof.
  intros _ _ Hdur Hzero. apply calcular_guard_false.
  rewrite Hdur. simpl. rewrite Hzero. simpl. apply andb_false_r.
Qed.

Lemma patchValue_other_control (obj : gmap string jsval) (f : FormGroup) k :
  obj !! k = None ->
  controls (patchValue obj f) !! k = controls f !! k.
Proof.
  intros Hk. unfold patchValue. simpl. rewrite map_lookup_imap.
  destruct (controls f !! k) as [c|]; simpl; [|done]. by rewrite Hk.
Qed.

Lemma patchValue_control (obj : gmap string jsval) (f : FormGroup) k v c :
  obj !! k = Some v ->
  controls f !! k = Some c ->
  controls (patchValue obj f) !! k = Some (Control v (cdisabled c)).
Proof.
  intros Hk Hc. unfold patchValue. simpl. rewrite map_lookup_imap, Hc.
  simpl. by rewrite Hk.
Qed.

Lemma patchValue_no_control (obj : gmap string jsval) (f : FormGroup) k :
  controls f !! k = None ->
  controls (patchValue obj f) !! k = None.
Proof.
  intros Hc. unfold patchValue. simpl. by rewrite map_lookup_imap, Hc.
Qed.

Lemma setMonth_length (h : heap) l x :
  length (setMonth LocalTZA h l x) = length h.
Proof.
  unfold setMonth. destruct (dateValue h l); [apply length_insert | done].
Qed.

Lemma setMonth_other (h : heap) l l' x :
  l <> l' -> setMonth LocalTZA h l x !! l' = h !! l'.
Proof.
  intros Hne. unfold setMonth.
  destruct (dateValue h l); [by apply list_lookup_insert_ne | done].
Qed.

Lemma allControlsDisabled_spec (cs : gmap string control) :
  allControlsDisabled cs = true
  <-> (forall k c, cs !! k = Some c -> cdisabled c = true) /\ cs <> ∅.
Proof.
  unfold allControlsDisabled.
  rewrite andb_true_iff, negb_true_iff, bool_decide_eq_false, forallb_forall.
  split; intros [Hall Hne]; (split; [|done]).
  - intros k c Hk. apply (Hall (k, c)).
    by apply list_elem_of_In, elem_of_map_to_list.
  - intros [k c] Hin. apply list_elem_of_In, elem_of_map_to_list in Hin.
    by apply (Hall k c).
Qed.

Lemma patchValue_lookup (obj : gmap string jsval) (f : FormGroup) k :
  controls (patchValue obj f) !! k
    = (fun c => match obj !! k with
                | Some v => Control v (cdisabled c)
                | None => c
                end) <$> controls f !! k.
Proof.
  unfold patchValue. simpl. rewrite map_lookup_imap.
  by destruct (controls f !! k).
Qed.

(** Patching changes no control's [disabled] flag, so the group is
    disabled after it exactly when it was before. *)
Lemma patchValue_allControlsDisabled (obj : gmap string jsval) (f : FormGroup) :
  allControlsDisabled (controls (patchValue obj f))
    = allControlsDisabled (controls f).
Proof.
  apply eq_true_iff_eq. rewrite !allControlsDisabled_spec.
  split; intros [Hall Hne]; split.
  - intros k c Hk. specialize (Hall k). rewrite patchValue_lookup, Hk in Hall.
    simpl in Hall. specialize (Hall _ eq_refl). by destruct (obj !! k).
  - intros E. apply Hne. apply map_eq. intros k.
    rewrite patchValue_lookup, E. by rewrite !lookup_empty.
  - intros k c Hk. rewrite patchValue_lookup in Hk.
    destruct (controls f !! k) as [c0|] eqn:Hc0; [|done].
    simpl in Hk. injection Hk as <-. specialize (Hall k c0 Hc0).
    by destruct (obj !! k).
  - intros E. apply Hne. apply map_eq. intros k.
    assert (Hk : controls (patchValue obj f) !! k = None)
      by (by rewrite E, lookup_empty).
    rewrite patchValue_lookup in Hk. rewrite lookup_empty.
    by destruct (controls f !! k).
Qed.

Lemma reduceValue_lookup (cs : gmap string control) k :
  reduceValue cs !! k
    = match cs !! k with
      | Some c =>
          if allControlsDisabled cs || negb (cdisabled c)
          then Some (cvalue c) else None
      | None => None
      end.
Proof.
  unfold reduceValue. destruct (allControlsDisabled cs); simpl.
  - rewrite lookup_fmap. by destruct (cs !! k).
  - rewrite lookup_omap. destruct (cs !! k) as [c|]; [|done].
    simpl. by destruct (cdisabled c).
Qed.

(** A property the patch does not name reads the same in the rebuilt
    [value] as in the one built from the controls before. *)
Lemma patchValue_value_other (obj : gmap string jsval) (f : FormGroup) k :
  obj !! k = None ->
  value (patchValue obj f) !! k = reduceValue (controls f) !! k.
Proof.
  intros Hk. change (value (patchValue obj f))
    with (reduceValue (controls (patchValue obj f))).
  rewrite !reduceValue_lookup, patchValue_allControlsDisabled.
  by rewrite patchValue_other_control.
Qed.

(** C7: the calculation leaves the purchase date as it is: the control
    [dataCompra] holds the same value; every Date object that existed
    before, the purchase date among them, keeps its time value, only the
    copy made by [new Date] being changed; and the [dataCompra] property
    of the form's value, where it was that of the controls, reads the
    same. *)
Theorem calcular_keeps_dataCompra (st : state) :
  controls (produtoForm (calcular st)) !! "dataCompra"
    = controls (produtoForm st) !! "dataCompra"
  /\ (forall l : nat, (l < length (store st))%nat ->
        store (calcular st) !! l = store st !! l)
  /\ (value (produtoForm st) !! "dataCompra"
        = reduceValue (controls (produtoForm st)) !! "dataCompra" ->
      value (produtoForm (calcular st)) !! "dataCompra"
        = value (produtoForm st) !! "dataCompra").
Proof.
  unfold calcularDataFimGarantia.
  destruct (ToBoolean _ && ToBoolean _); [|done].
  simpl. repeat split.
  - by apply patchValue_other_control.
  - intros l Hl. rewrite setMonth_other by lia.
    by apply lookup_app_l.
  - intros Hsync. rewrite Hsync. by apply patchValue_value_other.
Qed.





Lemma MakeDay_normal (y k d : Z) :
  MakeDay y k d = MakeDay (y + k / 12) (k mod 12) d.
Proof.
  unfold MakeDay.
  replace (k mod 12 / 12) with 0 by divmod.
  replace (k mod 12 mod 12) with (k mod 12) by divmod.
  by rewrite Z.add_0_r.
Qed.

Lemma MakeDay_rollover (y m d : Z) :
  0 <= m <= 10 ->
  MakeDay y m d = MakeDay y (m + 1) (d - DaysInMonth y m).
Proof.
  intros Hm. unfold MakeDay, DaysInMonth.
  replace (m / 12) with 0 by divmod. replace (m mod 12) with m by divmod.
  replace ((m + 1) / 12) with 0 by divmod.
  replace ((m + 1) mod 12) with (m + 1) by divmod.
  rewrite Z.add_0_r. lia.
Qed.

(** [setMonth] agrees with the specification's month arithmetic: from a
    local time [lt], month index [MonthFromTime lt + n] gives the local
    time whose date is [advanceMonths n] of the date of [lt], at the same
    time of day. *)
Lemma setMonth_advanceMonths (lt n : Z) :
  let lt' := MakeDate (MakeDay (YearFromTime lt) (MonthFromTime lt + n)
                               (DateFromTime lt))
                      (TimeWithinDay lt) in
  (YearFromTime lt', MonthFromTime lt', DateFromTime lt')
    = advanceMonths n (YearFromTime lt) (MonthFromTime lt) (DateFromTime lt)
  /\ TimeWithinDay lt' = TimeWithinDay lt.
Proof.
  intros lt'. unfold advanceMonths.
  pose proof (fields_valid lt) as [Hm Hd].
  pose proof (monthStart_mono (isLeapYear (YearFromTime lt)) (MonthFromTime lt) Hm)
    as Hlen. fold (DaysInMonth (YearFromTime lt) (MonthFromTime lt)) in Hlen.
  set (y' := YearFromTime lt + (MonthFromTime lt + n) / 12) in *.
  set (m' := (MonthFromTime lt + n) mod 12) in *.
  assert (Hm' : 0 <= m' <= 11) by (unfold m'; divmod).
  assert (Htod : 0 <= TimeWithinDay lt < msPerDay)
    by (unfold TimeWithinDay, msPerDay; divmod).
  pose proof (monthStart_mono (isLeapYear y') m' Hm') as Hlen'.
  fold (DaysInMonth y' m') in Hlen'.
  subst lt'. rewrite MakeDay_normal. fold y' m'.
  destruct (Z.leb_spec (DateFromTime lt) (DaysInMonth y' m')) as [Hfit|Hover].
  - destruct (fields_MakeDate y' m' (DateFromTime lt) (TimeWithinDay lt))
      as (-> & -> & -> & ->); [done|lia|done|done].
  - assert (Hm10 : 0 <= m' <= 10).
    { assert (m' <> 11); [|lia]. intros E. rewrite E in Hover, Hlen'.
      assert (DaysInMonth y' 11 = 31)
        by (unfold DaysInMonth; destruct (isLeapYear y'); reflexivity).
      lia. }
    rewrite MakeDay_rollover by done.
    pose proof (monthStart_mono (isLeapYear y') (m' + 1) ltac:(lia)) as Hnext.
    fold (DaysInMonth y' (m' + 1)) in Hnext.
    destruct (fields_MakeDate y' (m' + 1)
                (DateFromTime lt - DaysInMonth y' m') (TimeWithinDay lt))
      as (-> & -> & -> & ->); [lia|lia|done|done].
Qed.

Lemma ToBoolean_of_Z (n : Z) :
  n <> 0 -> Z.abs n < 2 ^ 53 -> ToBoolean (VNumber (of_Z n)) = true.
Proof.
  intros Hn Hb. destruct (holds_of_Z n Hb) as (neg & m & e & -> & He & Hm).
  simpl. assert (Hp : 0 < 2 ^ (- e)) by (apply Z.pow_pos_nonneg; lia).
  destruct (Z.eqb_spec m 0) as [->|]; [|done]. destruct neg; nia.
Qed.

(** C1, as stated, fails: a purchase date of 2024-01-15 and a duration of
    0 months are both present and pass their validators, yet after the
    calculation [dataFimGarantia] still holds its initial empty string and
    no Date object was made: it is not the purchase date advanced by zero
    months. *)
Lemma calcular_zero_months_not_set :
  dateValidator utcZone isoOnly (store zeroMonths) (VString "2024-01-15") = None
  /\ numberValidator (store zeroMonths) (VNumber (of_Z 0)) = None
  /\ value (produtoForm zeroMonths) !! "dataCompra"
       = Some (VString "2024-01-15")
  /\ value (produtoForm zeroMonths) !! "duracaoGarantiaMeses"
       = Some (VNumber (of_Z 0))
  /\ controls (produtoForm (calcularDataFimGarantia utcZone isoOnly zeroMonths))
       !! "dataFimGarantia" = Some (Control (VString "") true)
  /\ store (calcularDataFimGarantia utcZone isoOnly zeroMonths) = [].
Proof. vm_compute. repeat split. Qed.

(** C1, amended: on a form that has a [dataFimGarantia] control, when
    [dataCompra] is present and converts to a valid date and
    [duracaoGarantiaMeses] is a number of whole months other than 0, the
    calculation puts in [dataFimGarantia] a new Date: in local time, the
    purchase date advanced by that many calendar months, at the same time
    of day.  When [dataCompra] or [duracaoGarantiaMeses] is absent or any
    other value JavaScript takes as false (empty string, 0, NaN, null),
    the calculation changes nothing. *)
Theorem calcular_sets_end_date (st : state) :
  (forall (c : control) (t n : Z),
     controls (produtoForm st) !! "dataFimGarantia" = Some c ->
     ToBoolean (prop (value (produtoForm st)) "dataCompra") = true ->
     dateOf (store st) (prop (value (produtoForm st)) "dataCompra") = Some t ->
     prop (value (produtoForm st)) "duracaoGarantiaMeses" = VNumber (of_Z n) ->
     n <> 0 -> Z.abs n <= 2 ^ 52 ->
     let lt := LocalTime LocalTZA t in
     exists lt' : Z,
       (YearFromTime lt', MonthFromTime lt', DateFromTime lt')
         = advanceMonths n (YearFromTime lt) (MonthFromTime lt) (DateFromTime lt)
       /\ TimeWithinDay lt' = TimeWithinDay lt
       /\ controls (produtoForm (calcular st)) !! "dataFimGarantia"
            = Some (Control (VDate (length (store st))) (cdisabled c))
       /\ store (calcular st) !! length (store st)
            = Some (TimeClip (UTC LocalTZA lt')))
  /\ (ToBoolean (prop (value (produtoForm st)) "dataCompra")
      && ToBoolean (prop (value (produtoForm st)) "duracaoGarantiaMeses") = false ->
      calcular st = st).
Proof.
  split; [|apply calcular_guard_false].
  intros c t n Hc Hpresent Hdate Hdur Hn Hbound lt.
  pose proof (fields_valid lt) as [Hm _].
  assert (Hn53 : Z.abs n < 2 ^ 53) by lia.
  assert (Hsum : truncate (add (of_Z (MonthFromTime lt)) (of_Z n))
                 = Some (MonthFromTime lt + n)).
  { apply holds_truncate, holds_add; [apply holds_of_Z| apply holds_of_Z|]; lia. }
  destruct (setMonth_advanceMonths lt n) as [Hfields Htod].
  eexists. split; [exact Hfields|]. split; [exact Htod|].
  unfold calcularDataFimGarantia.
  rewrite Hpresent, Hdur, (ToBoolean_of_Z n Hn Hn53). simpl.
  assert (Hcell : dateValue (store st ++ [dateOf (store st)
                      (prop (value (produtoForm st)) "dataCompra")])
                    (length (store st)) = Some t).
  { unfold dateValue. rewrite Hdate.
    by rewrite lookup_app_r, Nat.sub_diag by lia. }
  split.
  - apply patchValue_control; [apply lookup_singleton_eq|done].
  - unfold setMonth, getMonth. rewrite Hcell. fold lt.
    rewrite list_lookup_insert_eq by (rewrite length_app; simpl; lia).
    unfold setMonthValue. fold lt. by rewrite Hsum.
Qed.

End Calculation.

(** ** The date validator *)




Section DateTexts.

Variable LocalTZA : Z -> bool -> Z.
Variable fallbackDateParse : string -> option Z.




End DateTexts.


(** The same on every host: the text is in the Date Time String Format,
    which no engine's fallback and no time zone has a say in. *)
Lemma dateValidator_february_30_any_host
    (LocalTZA : Z -> bool -> Z) (fallbackDateParse : string -> option Z)
    (h : heap) :
  dateValidator LocalTZA fallbackDateParse h (VString "2024-02-30") = None.
Proof. reflexivity. Qed.


(** ** The calculation on sample forms *)

Lemma calcular_zero_duration_no_update_witness :
  calcularDataFimGarantia utcZone isoOnly zeroMonths = zeroMonths.
Proof.
  apply (calcular_zero_duration_no_update utcZone isoOnly zeroMonths
           (of_Z 0) 1705276800000); reflexivity.
Defined.

Lemma calcular_keeps_dataCompra_witness :
  controls (produtoForm (calcularDataFimGarantia utcZone isoOnly boughtOnDate))
    !! "dataCompra" = Some (Control (VDate 0) false)
  /\ store (calcularDataFimGarantia utcZone isoOnly boughtOnDate) !! 0%nat
       = Some (Some 1705276800000)
  /\ value (produtoForm (calcularDataFimGarantia utcZone isoOnly boughtOnDate))
       !! "dataCompra" = Some (VDate 0).
Proof.
  destruct (calcular_keeps_dataCompra utcZone isoOnly boughtOnDate)
    as (Hcontrol & Hstore & Hvalue).
  split; [|split].
  - rewrite Hcontrol. reflexivity.
  - rewrite Hstore; [reflexivity | simpl; lia].
  - rewrite Hvalue; reflexivity.
Defined.

Lemma calcular_sets_end_date_witness :
  exists lt' : Z,
    (YearFromTime lt', MonthFromTime lt', DateFromTime lt') = (2024, 2, 2)
    /\ TimeWithinDay lt' = 0
    /\ controls (produtoForm (calcularDataFimGarantia utcZone isoOnly endOfJanuary))
         !! "dataFimGarantia" = Some (Control (VDate 0) true)
    /\ store (calcularDataFimGarantia utcZone isoOnly endOfJanuary) !! 0%nat
         = Some (TimeClip (UTC utcZone lt')).
Proof.
  apply (proj1 (calcular_sets_end_date utcZone isoOnly endOfJanuary)
               (Control (VString "") true) 1706659200000 1);
    [reflexivity | reflexivity | reflexivity | reflexivity | lia | simpl; lia].
Defined.

(** The examples of the specification, in UTC: 2024-01-15 and 12 months
    give 2025-01-15; 2024-01-31 and 1 month roll over to 2024-03-02. *)
Example calcular_twelve_months :
  store (calcularDataFimGarantia utcZone isoOnly twelveMonths)
    = [newDateValue utcZone isoOnly [] (VString "2025-01-15")].
Proof. reflexivity. Qed.

Example calcular_end_of_january :
  store (calcularDataFimGarantia utcZone isoOnly endOfJanuary)
    = [newDateValue utcZone isoOnly [] (VString "2024-03-02")].
Proof. reflexivity. Qed.

(** Three hours behind UTC the date-only string is the evening before, and
    the same rollover ends a day later. *)
Example calcular_end_of_january_brasilia :
  store (calcularDataFimGarantia brasiliaZone isoOnly
           (fillIn initialForm (VString "2024-02-01") (VNumber (of_Z 1))))
    = [newDateValue brasiliaZone isoOnly [] (VString "2024-03-03")].
Proof. reflexivity. Qed.

(** A purchase date that is no date, being a non-empty string, still goes
    through the calculation: the field receives an invalid Date. *)
Example calcular_invalid_date_sets_field :
  let st := fillIn initialForm (VString "abc") (VNumber (of_Z 12)) in
  dateValidator utcZone isoOnly (store st) (VString "abc") <> None
  /\ controls (produtoForm (calcularDataFimGarantia utcZone isoOnly st))
       !! "dataFimGarantia" = Some (Control (VDate 0) true)
  /\ store (calcularDataFimGarantia utcZone isoOnly st) = [None].
Proof. vm_compute. repeat split. discriminate. Qed.

(** A duration held as a string is appended to the month index: in
    February (index 1) the string 12 makes month 112, and 2024-02-15
    becomes 2033-05-15. *)
Example calcular_string_duration :
  store (calcularDataFimGarantia utcZone isoOnly
           (fillIn initialForm (VString "2024-02-15") (VString "12")))
    = [newDateValue utcZone isoOnly [] (VString "2033-05-15")].
Proof. reflexivity. Qed.

(** The form built by [createForm] has no [dataFimGarantia] control, and
    on such a form the calculation changes no control. *)
Lemma createForm_no_dataFimGarantia (st : state) :
  controls (produtoForm (createForm st)) !! "dataFimGarantia" = None.
Proof. reflexivity. Qed.

Lemma calcular_without_control LocalTZA fallbackDateParse (st : state) :
  controls (produtoForm st) !! "dataFimGarantia" = None ->
  controls (produtoForm (calcularDataFimGarantia LocalTZA fallbackDateParse st))
    = controls (produtoForm st).
Proof.
  intros Hnone. unfold calcularDataFimGarantia.
  destruct (ToBoolean _ && ToBoolean _); [|done].
  unfold newDate. cbn [produtoForm]. apply map_eq. intros k.
  rewrite patchValue_lookup.
  destruct (decide (k = "dataFimGarantia")) as [->|Hk].
  - by rewrite Hnone.
  - rewrite lookup_singleton_ne by done. by destruct (controls _ !! k).
Qed.

Example calcular_after_ngOnInit :
  let st := fillIn (produtoForm (ngOnInit ∅ initialState))
                   (VString "2024-01-15") (VNumber (of_Z 12)) in
  controls (produtoForm (calcularDataFimGarantia utcZone isoOnly st))
    !! "dataFimGarantia" = None
  /\ value (produtoForm (calcularDataFimGarantia utcZone isoOnly st))
    !! "dataFimGarantia" = None.
Proof. vm_compute. done. Qed.

(** * Further properties *)

(** ** Texts that convert to numbers *)

Lemma code_range (c : ascii) : 0 <= code c < 256.
Proof.
  unfold code. pose proof (N_ascii_bounded c). lia.
Qed.

Lemma code_digitChar (d : Z) : 0 <= d <= 9 -> code (digitChar d) = 48 + d.
Proof.
  intros Hd. unfold code, digitChar.
  rewrite N_ascii_embedding by lia. lia.
Qed.

Lemma digitValue_decimal (c : ascii) (v : Z) :
  digitValue 10 c = Some v -> 48 <= code c <= 57 /\ v = code c - 48.
Proof.
  unfold digitValue. pose proof (code_range c).
  repeat match goal with
         | |- context [?a <=? ?b] => destruct (Z.leb_spec a b); simpl
         | |- context [?a <? ?b] => destruct (Z.ltb_spec a b); simpl
         end; intros [= <-]; lia.
Qed.

Lemma digitValue_of_code (c : ascii) :
  48 <= code c <= 57 -> digitValue 10 c = Some (code c - 48).
Proof.
  intros Hc. unfold digitValue.
  destruct (Z.leb_spec 48 (code c)); [|lia].
  destruct (Z.leb_spec (code c) 57); [|lia]. simpl.
  destruct (Z.ltb_spec (code c - 48) 10); [done|lia].
Qed.

Lemma digit_not_whitespace (c : ascii) :
  48 <= code c <= 57 -> isStrWhiteSpaceChar c = false.
Proof.
  intros Hc. unfold isStrWhiteSpaceChar.
  repeat match goal with
         | |- context [?a <=? ?b] => destruct (Z.leb_spec a b); simpl
         | |- context [?a =? ?b] => destruct (Z.eqb_spec a b); simpl
         end; lia.
Qed.

Lemma spanDigits_decimal (cs : list ascii) :
  Forall isDecimalDigit cs ->
  spanDigits 10 cs = (map (fun c => code c - 48) cs, []).
Proof.
  induction 1 as [|c cs Hc _ IH]; [done|].
  simpl. rewrite digitValue_of_code, IH by done. done.
Qed.

Lemma trimStart_whitespace (cs : list ascii) :
  forallb isStrWhiteSpaceChar cs = true -> trimStart cs = [].
Proof.
  induction cs as [|c cs IH]; [done|]. simpl.
  intros [Hc Hcs]%andb_true_iff. rewrite Hc. auto.
Qed.

Lemma trimStart_noWhiteSpace (cs : list ascii) :
  noWhiteSpace cs -> trimStart cs = cs.
Proof. intros H. destruct H as [|c cs Hc _]; [done|]. simpl. by rewrite Hc. Qed.

(** Trimming leaves alone a text without white space. *)
Lemma trim_noWhiteSpace (cs : list ascii) : noWhiteSpace cs -> trim cs = cs.
Proof.
  intros H. unfold trim. rewrite (trimStart_noWhiteSpace cs H).
  rewrite trimStart_noWhiteSpace by (by apply Forall_rev).
  apply rev_involutive.
Qed.

Lemma decimal_noWhiteSpace (cs : list ascii) :
  Forall isDecimalDigit cs -> noWhiteSpace cs.
Proof.
  intros H. eapply Forall_impl; [exact H|].
  intros c Hc. by apply digit_not_whitespace.
Qed.

Lemma digitsValue_app (radix : Z) (ds es : list Z) :
  digitsValue radix (ds ++ es)
    = digitsValue radix ds * radix ^ Z.of_nat (length es) + digitsValue radix es.
Proof.
  unfold digitsValue. rewrite fold_left_app.
  generalize (fold_left (fun acc d => acc * radix + d) ds 0) as a.
  induction es as [|e es IH]; intros a.
  - simpl. lia.
  - cbn [fold_left length]. rewrite IH, (IH (0 * radix + e)).
    rewrite Nat2Z.inj_succ, Z.pow_succ_r by lia. ring.
Qed.

(** A non-empty text of decimal digits, with or without a minus sign in
    front, converts to the integer it denotes, rounded. *)
Lemma unsignedDecimal_digits (neg : bool) (cs : list ascii) :
  cs <> [] -> Forall isDecimalDigit cs ->
  unsignedDecimal neg cs
    = round neg (digitsValue 10 (map (fun c => code c - 48) cs)) 1.
Proof.
  intros Hne Hds. unfold unsignedDecimal.
  destruct cs as [|c cs]; [done|].
  assert (Hc : isDecimalDigit c) by (by inversion Hds).
  assert (Hinf : String.eqb (string_of_list_ascii (c :: cs)) "Infinity" = false).
  { apply String.eqb_neq. simpl. intros E. injection E as Ec _.
    unfold isDecimalDigit in Hc. rewrite Ec in Hc.
    change (code "I") with 73 in Hc. lia. }
  rewrite Hinf, spanDigits_decimal by done.
  rewrite app_nil_r. cbn [exponentPart map length].
  rewrite Z.sub_0_r. simpl (0 <=? 0). cbn iota.
  by rewrite Z.pow_0_r, Z.mul_1_r.
Qed.

Lemma strNumericLiteral_digits (cs : list ascii) :
  cs <> [] -> Forall isDecimalDigit cs ->
  strNumericLiteral cs
    = round false (digitsValue 10 (map (fun c => code c - 48) cs)) 1.
Proof.
  intros Hne Hds. rewrite <- unsignedDecimal_digits by done.
  destruct cs as [|z [|x rest]]; [done|done|].
  assert (Hz : isDecimalDigit z) by (by inversion Hds).
  assert (Hx : isDecimalDigit x).
  { inversion Hds as [|? ? _ Hr]. by inversion Hr. }
  unfold isDecimalDigit in Hz, Hx. unfold strNumericLiteral.
  repeat match goal with
         | |- context [?a =? ?b] => destruct (Z.eqb_spec a b); try lia; simpl
         end; done.
Qed.

Lemma strNumericLiteral_minus_digits (cs : list ascii) :
  cs <> [] -> Forall isDecimalDigit cs ->
  strNumericLiteral ("-"%char :: cs)
    = round true (digitsValue 10 (map (fun c => code c - 48) cs)) 1.
Proof.
  intros Hne Hds. rewrite <- unsignedDecimal_digits by done.
  destruct cs as [|x rest]; [done|].
  assert (Hx : isDecimalDigit x) by (by inversion Hds).
  unfold isDecimalDigit in Hx. unfold strNumericLiteral.
  change (code "-") with 45.
  repeat match goal with
         | |- context [?a =? ?b] => destruct (Z.eqb_spec a b); try lia; simpl
         end; done.
Qed.

Lemma StringToNumber_digits (cs : list ascii) :
  cs <> [] -> Forall isDecimalDigit cs ->
  StringToNumber (string_of_list_ascii cs)
    = round false (digitsValue 10 (map (fun c => code c - 48) cs)) 1.
Proof.
  intros Hne Hds. unfold StringToNumber.
  rewrite list_ascii_of_string_of_list_ascii.
  rewrite trim_noWhiteSpace by (by apply decimal_noWhiteSpace).
  rewrite <- strNumericLiteral_digits by done.
  by destruct cs.
Qed.

Lemma StringToNumber_minus_digits (cs : list ascii) :
  cs <> [] -> Forall isDecimalDigit cs ->
  StringToNumber (String "-" (string_of_list_ascii cs))
    = round true (digitsValue 10 (map (fun c => code c - 48) cs)) 1.
Proof.
  intros Hne Hds. unfold StringToNumber.
  change (String "-" (string_of_list_ascii cs))
    with (string_of_list_ascii ("-"%char :: cs)).
  rewrite list_ascii_of_string_of_list_ascii.
  rewrite trim_noWhiteSpace.
  - by apply strNumericLiteral_minus_digits.
  - constructor; [reflexivity | by apply decimal_noWhiteSpace].
Qed.

Lemma digitsValue_cons (d : Z) (ds : list Z) :
  digitsValue 10 (d :: ds) = d * 10 ^ Z.of_nat (length ds) + digitsValue 10 ds.
Proof.
  change (d :: ds) with ([d] ++ ds). rewrite digitsValue_app.
  unfold digitsValue at 1. simpl. lia.
Qed.

Lemma natDigits_keeps (fuel : nat) (z : Z) (acc : list ascii) :
  acc <> [] -> natDigits fuel z acc <> [].
Proof.
  revert z acc. induction fuel as [|fuel IH]; intros z acc Hacc; [done|].
  simpl. destruct (z <? 10); [done|]. by apply IH.
Qed.

Lemma natDigits_nonempty (fuel : nat) (z : Z) (acc : list ascii) :
  natDigits (S fuel) z acc <> [].
Proof. simpl. destruct (z <? 10); [done|]. by apply natDigits_keeps. Qed.

(** The digits written for [z] are decimal digits and denote [z]. *)
Lemma natDigits_value (fuel : nat) (z : Z) (acc : list ascii) :
  0 <= z < 2 ^ Z.of_nat fuel ->
  Forall isDecimalDigit acc ->
  Forall isDecimalDigit (natDigits fuel z acc)
  /\ digitsValue 10 (map (fun c => code c - 48) (natDigits fuel z acc))
     = z * 10 ^ Z.of_nat (length acc)
       + digitsValue 10 (map (fun c => code c - 48) acc).
Proof.
  revert z acc. induction fuel as [|fuel IH]; intros z acc Hz Hacc.
  - simpl in *. split; [done|]. assert (z = 0) by lia. subst z. lia.
  - rewrite Nat2Z.inj_succ, Z.pow_succ_r in Hz by lia.
    simpl. destruct (Z.ltb_spec z 10) as [Hlt|Hge].
    + assert (Hd : isDecimalDigit (digitChar z))
        by (unfold isDecimalDigit; rewrite code_digitChar; lia).
      split; [by constructor|].
      cbn [map]. rewrite digitsValue_cons, length_map, code_digitChar by lia.
      f_equal. f_equal. lia.
    + assert (Hd : isDecimalDigit (digitChar (z mod 10))).
      { unfold isDecimalDigit. rewrite code_digitChar; Z.div_mod_to_equations; lia. }
      destruct (IH (z / 10) (digitChar (z mod 10) :: acc)) as [Hall Hval].
      * Z.div_mod_to_equations; lia.
      * by constructor.
      * split; [done|]. rewrite Hval. cbn [map length].
        rewrite digitsValue_cons, length_map, code_digitChar
          by (Z.div_mod_to_equations; lia).
        rewrite Nat2Z.inj_succ, Z.pow_succ_r by lia.
        pose proof (Z.div_mod z 10 ltac:(lia)) as Hdm.
        set (p := 10 ^ Z.of_nat (length acc)) in *.
        set (v := digitsValue 10 (map (fun c => code c - 48) acc)) in *.
        replace (48 + z mod 10 - 48) with (z mod 10) by lia.
        rewrite Hdm at 3. ring.
Qed.

Lemma intToString_value (z : Z) :
  0 <= z ->
  exists cs : list ascii,
    intToString z = string_of_list_ascii cs
    /\ cs <> [] /\ Forall isDecimalDigit cs
    /\ digitsValue 10 (map (fun c => code c - 48) cs) = z.
Proof.
  intros Hz. unfold intToString.
  destruct (Z.ltb_spec z 0) as [|_]; [lia|].
  rewrite Z.abs_eq by done.
  eexists. split; [reflexivity|]. split; [apply natDigits_nonempty|].
  destruct (natDigits_value (S (Z.to_nat (Z.log2 z))) z []) as [Hall Hval];
    [|done|].
  - rewrite Nat2Z.inj_succ, Z2Nat.id by apply Z.log2_nonneg.
    destruct (Z.eq_dec z 0) as [->|Hne]; [simpl; lia|].
    pose proof (Z.log2_spec z ltac:(lia)). lia.
  - split; [done|]. rewrite Hval. unfold digitsValue. simpl. lia.
Qed.

Lemma intToString_negative (z : Z) :
  z < 0 -> intToString z = String "-" (intToString (- z)).
Proof.
  intros Hz. unfold intToString.
  destruct (Z.ltb_spec z 0); [|lia].
  destruct (Z.ltb_spec (- z) 0); [lia|].
  by rewrite Z.abs_opp.
Qed.

Lemma StringToNumber_intToString_all (z : Z) :
  StringToNumber (intToString z) = of_Z z.
Proof.
  unfold of_Z. destruct (Z.ltb_spec z 0) as [Hneg|Hpos].
  - rewrite intToString_negative by done.
    destruct (intToString_value (- z)) as (cs & -> & Hne & Hds & Hval); [lia|].
    rewrite StringToNumber_minus_digits, Hval by done. f_equal. lia.
  - destruct (intToString_value z Hpos) as (cs & -> & Hne & Hds & Hval).
    rewrite StringToNumber_digits, Hval by done. f_equal. lia.
Qed.

(** ** What converts to a number, and the route's identifier *)

(** X1: a text of white space only (spaces, tabs, line ends) converts to
    +0 and so passes the numeric validator. *)
Theorem numberValidator_whitespace (h : heap) (s : string) :
  forallb isStrWhiteSpaceChar (list_ascii_of_string s) = true ->
  StringToNumber s = Finite false 0 0
  /\ numberValidator h (VString s) = None.
Proof.
  intros Hws.
  assert (Hnum : StringToNumber s = Finite false 0 0).
  { unfold StringToNumber, trim. rewrite (trimStart_whitespace _ Hws). reflexivity. }
  split; [done|]. unfold numberValidator. simpl. by rewrite Hnum.
Qed.

Lemma numberValidator_whitespace_witness :
  StringToNumber "   " = Finite false 0 0
  /\ numberValidator [] (VString "   ") = None.
Proof. apply (numberValidator_whitespace [] "   "). reflexivity. Defined.

(** X2: every non-empty text of decimal digits, leading zeros included,
    passes the numeric validator and converts to the integer it denotes,
    rounded to the nearest Number. *)
Theorem numberValidator_digits (h : heap) (cs : list ascii) :
  cs <> [] -> Forall isDecimalDigit cs ->
  StringToNumber (string_of_list_ascii cs)
    = round false (digitsValue 10 (map (fun c => code c - 48) cs)) 1
  /\ numberValidator h (VString (string_of_list_ascii cs)) = None.
Proof.
  intros Hne Hds. split; [by apply StringToNumber_digits|].
  unfold numberValidator. simpl.
  by rewrite StringToNumber_digits, round_not_NaN.
Qed.

Lemma numberValidator_digits_witness :
  StringToNumber "007" = of_Z 7
  /\ numberValidator [] (VString "007") = None.
Proof.
  apply (numberValidator_digits [] (list_ascii_of_string "007")).
  - discriminate.
  - do 3 (constructor; [vm_compute; split; discriminate|]). constructor.
Defined.

(** X3: the decimal text of an integer, negative or not, converts back to
    that integer and passes the numeric validator. *)
Theorem Number_of_integer_text (h : heap) (z : Z) :
  StringToNumber (intToString z) = of_Z z
  /\ numberValidator h (VString (intToString z)) = None.
Proof.
  split; [apply StringToNumber_intToString_all|].
  unfold numberValidator. simpl.
  rewrite StringToNumber_intToString_all. unfold of_Z. by rewrite round_not_NaN.
Qed.

Lemma intToString_not_empty (z : Z) : intToString z <> "".
Proof.
  destruct (Z.lt_ge_cases z 0) as [Hneg|Hpos].
  - by rewrite intToString_negative.
  - destruct (intToString_value z Hpos) as (cs & -> & Hne & _).
    by destruct cs.
Qed.

(** X4: opened on a route whose [id] is the decimal text of an integer,
    0 included, the component enters Edit mode, stores that integer and
    fetches it, once. *)
Theorem ngOnInit_integer_id (params : gmap string jsval) (z : Z) (st : state) :
  params !! "id" = Some (VString (intToString z)) ->
  isEditing (ngOnInit params st) = true
  /\ produtoId (ngOnInit params st) = of_Z z
  /\ trace (ngOnInit params st) = trace st ++ [GetProdutoById (of_Z z)].
Proof.
  intros Hid. unfold ngOnInit, checkEditMode, prop. rewrite Hid.
  assert (Htrue : ToBoolean (VString (intToString z)) = true).
  { simpl. apply negb_true_iff, String.eqb_neq, intToString_not_empty. }
  rewrite Htrue. simpl. by rewrite StringToNumber_intToString_all.
Qed.

Lemma ngOnInit_integer_id_witness :
  isEditing (ngOnInit {[ "id" := VString "0" ]} initialState) = true
  /\ produtoId (ngOnInit {[ "id" := VString "0" ]} initialState) = of_Z 0
  /\ trace (ngOnInit {[ "id" := VString "0" ]} initialState)
       = [GetProdutoById (of_Z 0)].
Proof.
  apply (ngOnInit_integer_id {[ "id" := VString "0" ]} 0 initialState).
  reflexivity.
Defined.

(** ** Runs of the component *)


Lemma endDateHidden_patchValue (obj : gmap string jsval) (f : FormGroup) :
  endDateHidden f -> endDateHidden (patchValue obj f).
Proof.
  intros (_ & Hdis & Hgroup).
  assert (Hdis' : forall c, controls (patchValue obj f) !! "dataFimGarantia" = Some c
                            -> cdisabled c = true).
  { intros c. rewrite patchValue_lookup.
    destruct (controls f !! "dataFimGarantia") as [c0|] eqn:Hc0; [|done].
    simpl. intros [= <-]. specialize (Hdis c0 eq_refl).
    by destruct (obj !! "dataFimGarantia"). }
  assert (Hgroup' : allControlsDisabled (controls (patchValue obj f)) = false)
    by (by rewrite patchValue_allControlsDisabled).
  split; [|done].
  change (value (patchValue obj f))
    with (reduceValue (controls (patchValue obj f))).
  rewrite reduceValue_lookup, Hgroup'.
  destruct (controls (patchValue obj f) !! "dataFimGarantia") as [c|] eqn:Hc;
    [|done].
  by rewrite (Hdis' c eq_refl).
Qed.

Lemma endDateHidden_initialForm : endDateHidden initialForm.
Proof.
  split; [reflexivity|]. split; [|reflexivity].
  intros c Hc. vm_compute in Hc. by injection Hc as <-.
Qed.

Lemma endDateHidden_createForm (st : state) :
  endDateHidden (produtoForm (createForm st)).
Proof. split; [reflexivity|]. split; [|reflexivity]. intros c Hc. done. Qed.

Section RunProperties.

Variable LocalTZA : Z -> bool -> Z.
Variable fallbackDateParse : string -> option Z.

Local Abbreviation stepH := (step LocalTZA fallbackDateParse).
Local Abbreviation runH := (run LocalTZA fallbackDateParse).
Local Abbreviation calcular := (calcularDataFimGarantia LocalTZA fallbackDateParse).

Lemma run_invariant (P : state -> Prop) :
  (forall a st, P st -> P (stepH a st)) ->
  forall actions st, P st -> P (runH actions st).
Proof.
  intros Hstep actions. unfold run.
  induction actions as [|a actions IH]; intros st Hst; [done|].
  simpl. apply IH. by apply Hstep.
Qed.

Lemma run_app (xs ys : list action) (st : state) :
  runH (xs ++ ys) st = runH ys (runH xs st).
Proof. apply fold_left_app. Qed.

Lemma calcular_form (st : state) :
  produtoForm (calcular st) = produtoForm st
  \/ produtoForm (calcular st)
     = patchValue {[ "dataFimGarantia" := VDate (length (store st)) ]}
                  (produtoForm st).
Proof.
  unfold calcularDataFimGarantia.
  destruct (ToBoolean _ && ToBoolean _); [by right | by left].
Qed.

Lemma calcular_trace (st : state) : trace (calcular st) = trace st.
Proof.
  unfold calcularDataFimGarantia.
  by destruct (ToBoolean _ && ToBoolean _).
Qed.

Lemma calcular_mode (st : state) :
  isEditing (calcular st) = isEditing st
  /\ produtoId (calcular st) = produtoId st.
Proof.
  unfold calcularDataFimGarantia.
  by destruct (ToBoolean _ && ToBoolean _).
Qed.

(** Each step keeps the end date hidden and sends none. *)
Lemma step_endDateHidden (a : action) (st : state) :
  endDateHidden (produtoForm st) /\ Forall withoutEndDate (trace st) ->
  endDateHidden (produtoForm (stepH a st))
  /\ Forall withoutEndDate (trace (stepH a st)).
Proof.
  intros [Hform Htrace].
  destruct a as [params|params|produto|name v| | |p o]; simpl.
  - unfold ngOnInit, checkEditMode.
    destruct (ToBoolean _); simpl.
    + split; [apply (endDateHidden_createForm st)|].
      apply Forall_app. split; [done|]. by constructor.
    + split; [apply (endDateHidden_createForm st)|done].
  - unfold checkEditMode. destruct (ToBoolean _); simpl; [|done].
    split; [done|]. apply Forall_app. split; [done|]. by constructor.
  - unfold produtoLoaded. destruct produto as [p|]; [|done].
    destruct (isEditing st); [|done]. simpl.
    split; [by apply endDateHidden_patchValue|done].
  - split; [by apply endDateHidden_patchValue|done].
  - rewrite calcular_trace. split; [|done].
    destruct (calcular_form st) as [->| ->];
      [done | by apply endDateHidden_patchValue].
  - destruct Hform as (Hval & Hdis & Hgroup).
    unfold onSubmit. destruct (isEditing st); simpl.
    + split.
      * split; [|done]. simpl. by rewrite lookup_insert_ne.
      * apply Forall_app. split; [done|]. constructor; [|done].
        simpl. by rewrite lookup_insert_ne.
    + split; [done|]. apply Forall_app. split; [done|]. by constructor.
  - split.
    + by destruct p, o.
    + destruct p, o; simpl; rewrite <- app_assoc;
        apply Forall_app; split; try done; by repeat constructor.
Qed.

(** X5: however the component is driven from its construction on, no
    product it sends to the service has a [dataFimGarantia]. *)
Theorem never_sends_dataFimGarantia (actions : list action) :
  Forall withoutEndDate (trace (runH actions initialState)).
Proof.
  apply (run_invariant
           (fun st => endDateHidden (produtoForm st)
                      /\ Forall withoutEndDate (trace st))).
  - apply step_endDateHidden.
  - split; [apply endDateHidden_initialForm | constructor].
Qed.



Lemma noEndDate_patchValue (obj : gmap string jsval) (f : FormGroup) :
  noEndDate f -> noEndDate (patchValue obj f).
Proof.
  intros [Hc _].
  assert (Hc' : controls (patchValue obj f) !! "dataFimGarantia" = None)
    by (by apply patchValue_no_control).
  split; [done|].
  change (value (patchValue obj f))
    with (reduceValue (controls (patchValue obj f))).
  by rewrite reduceValue_lookup, Hc'.
Qed.

Lemma step_noEndDate (a : action) (st : state) :
  noEndDate (produtoForm st) -> noEndDate (produtoForm (stepH a st)).
Proof.
  intros Hform.
  destruct a as [params|params|produto|name v| | |p o]; simpl.
  - unfold ngOnInit, checkEditMode. by destruct (ToBoolean _).
  - unfold checkEditMode. by destruct (ToBoolean _).
  - unfold produtoLoaded. destruct produto as [p|]; [|done].
    destruct (isEditing st); [|done]. by apply noEndDate_patchValue.
  - by apply noEndDate_patchValue.
  - destruct (calcular_form st) as [->| ->];
      [done | by apply noEndDate_patchValue].
  - destruct Hform as [Hc Hv]. unfold onSubmit.
    destruct (isEditing st); simpl; [|done].
    split; [done|]. simpl. by rewrite lookup_insert_ne.
  - by destruct p, o.
Qed.

(** X6: once [ngOnInit] has run, whatever happens next, the calculation
    changes no control of the form and leaves no [dataFimGarantia] in the
    form's value. *)
Theorem calcular_after_ngOnInit_sets_nothing
    (params : gmap string jsval) (st : state) (actions : list action) :
  controls (produtoForm (calcular (runH actions (ngOnInit params st))))
    = controls (produtoForm (runH actions (ngOnInit params st)))
  /\ value (produtoForm (calcular (runH actions (ngOnInit params st))))
       !! "dataFimGarantia" = None.
Proof.
  assert (Hinv : noEndDate (produtoForm (runH actions (ngOnInit params st)))).
  { apply (run_invariant (fun s => noEndDate (produtoForm s)));
      [apply step_noEndDate|].
    unfold ngOnInit, checkEditMode. by destruct (ToBoolean _). }
  split.
  - apply calcular_without_control, Hinv.
  - apply (step_noEndDate Calcular), Hinv.
Qed.

Lemma step_mode (a : action) (st : state) :
  (isEditing st = true -> isEditing (stepH a st) = true)
  /\ (isRouteAction a = false ->
      isEditing (stepH a st) = isEditing st
      /\ produtoId (stepH a st) = produtoId st).
Proof.
  destruct a as [params|params|produto|name v| | |p o]; simpl.
  - split; [|done]. unfold ngOnInit, checkEditMode.
    by destruct (ToBoolean _).
  - split; [|done]. unfold checkEditMode. by destruct (ToBoolean _).
  - unfold produtoLoaded. destruct produto as [p|]; [|done].
    destruct (isEditing st) eqn:Hmode; [|done]. simpl. by rewrite Hmode.
  - done.
  - destruct (calcular_mode st) as [-> ->]. done.
  - unfold onSubmit. destruct (isEditing st) eqn:Hmode; simpl; by rewrite Hmode.
  - by destruct p, o.
Qed.

(** X7: the mode and the stored identifier are decided by the route alone:
    a run without route events changes neither, and no run at all takes
    the component out of Edit mode. *)
Theorem mode_follows_route (actions : list action) (st : state) :
  (isEditing st = true -> isEditing (runH actions st) = true)
  /\ (forallb (fun a => negb (isRouteAction a)) actions = true ->
      isEditing (runH actions st) = isEditing st
      /\ produtoId (runH actions st) = produtoId st).
Proof.
  unfold run. revert st.
  induction actions as [|a actions IH]; intros st; [done|].
  simpl. destruct (IH (stepH a st)) as [IHedit IHframe].
  destruct (step_mode a st) as [Hedit Hframe]. split.
  - intros H. by apply IHedit, Hedit.
  - intros [Ha Hrest]%andb_true_iff. apply negb_true_iff in Ha.
    destruct (Hframe Ha) as [<- <-]. by apply IHframe.
Qed.

Lemma calcular_store (st : state) :
  (length (store st) <= length (store (calcular st)))%nat
  /\ forall l : nat, (l < length (store st))%nat ->
       store (calcular st) !! l = store st !! l.
Proof.
  unfold calcularDataFimGarantia.
  destruct (ToBoolean _ && ToBoolean _); [|done].
  simpl. split.
  - rewrite setMonth_length, length_app. simpl. lia.
  - intros l Hl. rewrite setMonth_other by lia. by apply lookup_app_l.
Qed.

Lemma step_store (a : action) (st : state) :
  (length (store st) <= length (store (stepH a st)))%nat
  /\ forall l : nat, (l < length (store st))%nat ->
       store (stepH a st) !! l = store st !! l.
Proof.
  destruct a as [params|params|produto|name v| | |p o]; simpl.
  - unfold ngOnInit, checkEditMode. by destruct (ToBoolean _).
  - unfold checkEditMode. by destruct (ToBoolean _).
  - unfold produtoLoaded. destruct produto as [p|]; [|done].
    by destruct (isEditing st).
  - done.
  - apply calcular_store.
  - unfold onSubmit. by destruct (isEditing st).
  - by destruct p, o.
Qed.

(** X8: no Date object is ever changed once it exists: through any run,
    every cell of the heap keeps its time value, and the heap only
    grows. *)
Theorem run_keeps_Date_objects (actions : list action) (st : state) :
  (length (store st) <= length (store (runH actions st)))%nat
  /\ forall l : nat, (l < length (store st))%nat ->
       store (runH actions st) !! l = store st !! l.
Proof.
  apply (run_invariant
           (fun s => (length (store st) <= length (store s))%nat
                     /\ forall l : nat, (l < length (store st))%nat ->
                          store s !! l = store st !! l)); [|done].
  intros a s [Hlen Hsame]. destruct (step_store a s) as [Hlen' Hsame'].
  split; [lia|]. intros l Hl. rewrite Hsame' by lia. by apply Hsame.
Qed.

End RunProperties.

Lemma mode_follows_route_witness :
  isEditing (run utcZone isoOnly
               [Input "nome" (VString "TV"); Calcular; Submit;
                Response PendingUpdate Next; RouteParams ∅] editing7) = true
  /\ (isEditing (run utcZone isoOnly
                   [Input "nome" (VString "TV"); Calcular; Submit;
                    Response PendingAdd (Error VNull)] creating) = false
      /\ produtoId (run utcZone isoOnly
                      [Input "nome" (VString "TV"); Calcular; Submit;
                       Response PendingAdd (Error VNull)] creating)
         = Finite false 0 0).
Proof.
  split.
  - apply (proj1 (mode_follows_route utcZone isoOnly
                    [Input "nome" (VString "TV"); Calcular; Submit;
                     Response PendingUpdate Next; RouteParams ∅] editing7)).
    reflexivity.
  - apply (proj2 (mode_follows_route utcZone isoOnly
                    [Input "nome" (VString "TV"); Calcular; Submit;
                     Response PendingAdd (Error VNull)] creating)).
    reflexivity.
Defined.

Lemma run_keeps_Date_objects_witness :
  store (run utcZone isoOnly [Calcular; Submit; Calcular] boughtOnDate) !! 0%nat
    = Some (Some 1705276800000).
Proof.
  pose proof (proj2 (run_keeps_Date_objects utcZone isoOnly
                       [Calcular; Submit; Calcular] boughtOnDate) 0%nat) as H.
  rewrite H; [reflexivity | simpl; lia].
Defined.

(** ** Submitting again *)


Lemma submitted_frame (p : pending) (o : outcome) (st : state) :
  produtoForm (submitted p o st) = produtoForm st
  /\ isEditing (submitted p o st) = isEditing st
  /\ produtoId (submitted p o st) = produtoId st
  /\ exists es, trace (submitted p o st) = trace st ++ es
                /\ forallb (fun e => negb (isServiceCall e)) es = true.
Proof.
  destruct p, o; simpl; repeat split; eexists;
    (split; [by rewrite <- app_assoc | done]).
Qed.

Lemma answered_frame (rs : list (pending * outcome)) (st : state) :
  produtoForm (answered rs st) = produtoForm st
  /\ isEditing (answered rs st) = isEditing st
  /\ produtoId (answered rs st) = produtoId st
  /\ exists es, trace (answered rs st) = trace st ++ es
                /\ forallb (fun e => negb (isServiceCall e)) es = true.
Proof.
  unfold answered. revert st.
  induction rs as [|[p o] rs IH]; intros st.
  - simpl. repeat split. exists []. by rewrite app_nil_r.
  - simpl. destruct (IH (submitted p o st)) as (-> & -> & -> & es & -> & Hes).
    destruct (submitted_frame p o st) as (-> & -> & -> & es0 & -> & Hes0).
    repeat split. exists (es0 ++ es). split; [by rewrite app_assoc|].
    rewrite forallb_app. by rewrite Hes0, Hes.
Qed.

(** X9: nothing stands in the way of a second submission: sent at once or
    after the service has answered, with success or failure, it calls the
    service again with the same product, and the answers themselves call
    the service no more. *)
Theorem resubmit_same_product (st : state) (rs : list (pending * outcome)) :
  exists (call : event) (between : list event),
    trace (fst (onSubmit (answered rs (fst (onSubmit st)))))
      = trace st ++ call :: between ++ [call]
    /\ isServiceCall call = true
    /\ forallb (fun e => negb (isServiceCall e)) between = true.
Proof.
  destruct (answered_frame rs (fst (onSubmit st)))
    as (Hform & Hmode & Hid & es & Htrace & Hes).
  unfold onSubmit at 1. rewrite Hmode, Hform, Hid.
  unfold onSubmit in *. destruct (isEditing st) eqn:Hedit; simpl in *;
    rewrite Hedit; simpl; rewrite Htrace.
  - exists (UpdateProduto (<["id" := VNumber (produtoId st)]>
                              (value (produtoForm st)))), es.
    rewrite insert_insert_eq. split; [|done].
    by rewrite <- !app_assoc.
  - exists (AddProduto (value (produtoForm st))), es. split; [|done].
    by rewrite <- !app_assoc.
Qed.


(** ** Loading a product *)

Lemma createForm_control (st : state) (k : string) :
  controls (produtoForm (createForm st)) !! k
    = if bool_decide (k ∈ formFields) then Some (Control (VString "") false)
      else None.
Proof.
  unfold createForm, group, formFields. simpl.
  rewrite !lookup_insert, lookup_empty.
  destruct (bool_decide_reflect
              (k ∈ ["id"; "nome"; "dataCompra"; "duracaoGarantiaMeses"]))
    as [Hin|Hin]; rewrite !elem_of_cons, elem_of_nil in Hin.
  - destruct Hin as [->|[->|[->|[->|[]]]]]; reflexivity.
  - repeat case_decide; subst; try done; exfalso; apply Hin; auto.
Qed.

(** The value of the form after the product arrived, read by name. *)
Lemma loaded_value (p : gmap string jsval) (st : state) (k : string) :
  value (patchValue p (produtoForm (createForm st))) !! k
    = if bool_decide (k ∈ formFields)
      then Some (default (VString "") (p !! k))
      else None.
Proof.
  change (value (patchValue p (produtoForm (createForm st))))
    with (reduceValue (controls (patchValue p (produtoForm (createForm st))))).
  rewrite reduceValue_lookup, patchValue_allControlsDisabled.
  rewrite patchValue_lookup, createForm_control.
  change (allControlsDisabled (controls (produtoForm (createForm st))))
    with false.
  destruct (bool_decide (k ∈ formFields)); [|done].
  simpl. by destruct (p !! k).
Qed.

Lemma loaded_state
    (params : gmap string jsval) (v : jsval) (p : gmap string jsval)
    (st : state) :
  params !! "id" = Some v -> ToBoolean v = true ->
  produtoLoaded (Some p) (ngOnInit params st)
    = State (store st) (patchValue p (produtoForm (createForm st)))
            (ToNumber (store st) v) true
            (trace st ++ [GetProdutoById (ToNumber (store st) v)]).
Proof.
  intros Hid Hv. unfold ngOnInit, checkEditMode, prop. by rewrite Hid, Hv.
Qed.

(** X10: in Edit mode the arriving product fills the four controls of the
    form with its properties of the same names, a missing one leaving the
    empty string; every other property of the product is dropped. *)
Theorem produtoLoaded_fills_form
    (params : gmap string jsval) (v : jsval) (p : gmap string jsval)
    (st : state) (k : string) :
  params !! "id" = Some v -> ToBoolean v = true ->
  value (produtoForm (produtoLoaded (Some p) (ngOnInit params st))) !! k
    = if bool_decide (k ∈ formFields)
      then Some (default (VString "") (p !! k))
      else None.
Proof.
  intros Hid Hv. rewrite (loaded_state params v p st Hid Hv).
  apply (loaded_value p st k).
Qed.

(** X11: opening a product, receiving it and submitting at once sends an
    update whose [id] is the route's identifier, whose name, purchase date
    and duration are the product's, and which has no other property. *)
Theorem edit_load_submit
    (params : gmap string jsval) (v : jsval) (p : gmap string jsval)
    (st : state) :
  params !! "id" = Some v -> ToBoolean v = true ->
  exists sent : gmap string jsval,
    trace (fst (onSubmit (produtoLoaded (Some p) (ngOnInit params st))))
      = trace st ++ [GetProdutoById (ToNumber (store st) v);
                     UpdateProduto sent]
    /\ sent !! "id" = Some (VNumber (ToNumber (store st) v))
    /\ (forall k, k ∈ ["nome"; "dataCompra"; "duracaoGarantiaMeses"] ->
          sent !! k = Some (default (VString "") (p !! k)))
    /\ (forall k, k ∉ formFields -> sent !! k = None).
Proof.
  intros Hid Hv. rewrite (loaded_state params v p st Hid Hv).
  pose proof (loaded_value p st) as Hvalue.
  set (f := patchValue p (produtoForm (createForm st))) in *.
  unfold onSubmit. cbn [isEditing produtoForm produtoId fst emit setForm trace store].
  eexists. split; [by rewrite <- app_assoc|].
  split; [apply lookup_insert_eq|]. split.
  - intros k Hk. rewrite !elem_of_cons, elem_of_nil in Hk.
    destruct Hk as [->|[->|[->|[]]]];
      rewrite lookup_insert_ne by done; by rewrite Hvalue.
  - intros k Hk. rewrite lookup_insert_ne.
    + by rewrite Hvalue, bool_decide_eq_false_2.
    + intros <-. apply Hk. unfold formFields. apply elem_of_cons. by left.
Qed.

Lemma edit_load_submit_witness :
  exists sent : gmap string jsval,
    trace (fst (onSubmit (produtoLoaded
              (Some {[ "id" := VNumber (of_Z 3); "nome" := VString "TV";
                       "dataFimGarantia" := VString "2025-01-15" ]})
              (ngOnInit {[ "id" := VString "7" ]} initialState))))
      = [] ++ [GetProdutoById (of_Z 7); UpdateProduto sent]
    /\ sent !! "id" = Some (VNumber (of_Z 7))
    /\ (forall k, k ∈ ["nome"; "dataCompra"; "duracaoGarantiaMeses"] ->
          sent !! k
            = Some (default (VString "")
                      (({[ "id" := VNumber (of_Z 3); "nome" := VString "TV";
                           "dataFimGarantia" := VString "2025-01-15" ]}
                          : gmap string jsval) !! k)))
    /\ (forall k, k ∉ formFields -> sent !! k = None).
Proof.
  apply (edit_load_submit {[ "id" := VString "7" ]} (VString "7")
           {[ "id" := VNumber (of_Z 3); "nome" := VString "TV";
              "dataFimGarantia" := VString "2025-01-15" ]} initialState);
    reflexivity.
Defined.

Lemma produtoLoaded_fills_form_witness :
  value (produtoForm (produtoLoaded
           (Some {[ "nome" := VString "TV";
                    "dataFimGarantia" := VString "2025-01-15" ]})
           (ngOnInit {[ "id" := VString "7" ]} initialState)))
    !! "dataFimGarantia" = None.
Proof.
  apply (produtoLoaded_fills_form {[ "id" := VString "7" ]} (VString "7")
           {[ "nome" := VString "TV";
              "dataFimGarantia" := VString "2025-01-15" ]}
           initialState "dataFimGarantia"); reflexivity.
Defined.

(** ** More on the warranty end date *)

Lemma string_of_list_ascii_app (xs ys : list ascii) :
  string_of_list_ascii (xs ++ ys)
    = String.append (string_of_list_ascii xs) (string_of_list_ascii ys).
Proof. induction xs as [|x xs IH]; [done|]. simpl. by rewrite IH. Qed.

Lemma length_string_of_list_ascii (cs : list ascii) :
  String.length (string_of_list_ascii cs) = length cs.
Proof. induction cs as [|c cs IH]; [done|]. simpl. by rewrite IH. Qed.

Lemma of_Z_nonneg (z : Z) : 0 <= z -> of_Z z = round false z 1.
Proof.
  intros Hz. unfold of_Z. destruct (Z.ltb_spec z 0); [lia|].
  by rewrite Z.abs_eq.
Qed.

(** Two integers written one after the other convert to the first shifted
    by the digits of the second, plus the second. *)
Lemma StringToNumber_two_integers (m n : Z) :
  0 <= m -> 0 <= n ->
  StringToNumber (String.append (intToString m) (intToString n))
    = of_Z (m * 10 ^ Z.of_nat (String.length (intToString n)) + n).
Proof.
  intros Hm Hn.
  destruct (intToString_value m Hm) as (cm & -> & Hnem & Hdm & Hvm).
  destruct (intToString_value n Hn) as (cn & -> & Hnen & Hdn & Hvn).
  rewrite <- string_of_list_ascii_app, StringToNumber_digits.
  - rewrite map_app, digitsValue_app, length_map, Hvm, Hvn.
    rewrite length_string_of_list_ascii.
    rewrite of_Z_nonneg; [done|].
    assert (0 <= 10 ^ Z.of_nat (length cn)) by (apply Z.pow_nonneg; lia).
    nia.
  - by destruct cm.
  - apply Forall_app. by split.
Qed.

Section Months.

Variable LocalTZA : Z -> bool -> Z.
Variable fallbackDateParse : string -> option Z.

Local Abbreviation calcular := (calcularDataFimGarantia LocalTZA fallbackDateParse).
Local Abbreviation dateOf := (newDateValue LocalTZA fallbackDateParse).

(** What the calculation stores, given the month index [setMonth]
    receives. *)
Lemma calcular_month (st : state) (c : control) (t k : Z) :
  controls (produtoForm st) !! "dataFimGarantia" = Some c ->
  ToBoolean (prop (value (produtoForm st)) "dataCompra") = true ->
  dateOf (store st) (prop (value (produtoForm st)) "dataCompra") = Some t ->
  ToBoolean (prop (value (produtoForm st)) "duracaoGarantiaMeses") = true ->
  truncate (plusToNumber (store st ++ [Some t])
              (of_Z (MonthFromTime (LocalTime LocalTZA t)))
              (prop (value (produtoForm st)) "duracaoGarantiaMeses")) = Some k ->
  controls (produtoForm (calcular st)) !! "dataFimGarantia"
    = Some (Control (VDate (length (store st))) (cdisabled c))
  /\ store (calcular st) !! length (store st)
     = Some (TimeClip (UTC LocalTZA
               (MakeDate (MakeDay (YearFromTime (LocalTime LocalTZA t)) k
                                  (DateFromTime (LocalTime LocalTZA t)))
                         (TimeWithinDay (LocalTime LocalTZA t))))).
Proof.
  intros Hc Hpresent Hdate Hdur Hk.
  unfold calcularDataFimGarantia. rewrite Hpresent, Hdur. simpl.
  rewrite Hdate.
  assert (Hcell : dateValue (store st ++ [Some t]) (length (store st)) = Some t).
  { unfold dateValue. by rewrite lookup_app_r, Nat.sub_diag by lia. }
  split.
  - apply patchValue_control; [apply lookup_singleton_eq|done].
  - unfold setMonth, getMonth. rewrite Hcell.
    rewrite list_lookup_insert_eq by (rewrite length_app; simpl; lia).
    unfold setMonthValue. by rewrite Hk.
Qed.

(** X12: a duration held as text is not added to the month index but
    written after it: from month index [m], the digits of [n] make
    [setMonth] receive [m * 10^k + n], [k] being the number of digits. *)
Theorem calcular_text_duration (st : state) (c : control) (t n : Z) :
  controls (produtoForm st) !! "dataFimGarantia" = Some c ->
  ToBoolean (prop (value (produtoForm st)) "dataCompra") = true ->
  dateOf (store st) (prop (value (produtoForm st)) "dataCompra") = Some t ->
  prop (value (produtoForm st)) "duracaoGarantiaMeses"
    = VString (intToString n) ->
  0 <= n ->
  MonthFromTime (LocalTime LocalTZA t)
    * 10 ^ Z.of_nat (String.length (intToString n)) + n < 2 ^ 53 ->
  controls (produtoForm (calcular st)) !! "dataFimGarantia"
    = Some (Control (VDate (length (store st))) (cdisabled c))
  /\ store (calcular st) !! length (store st)
     = Some (TimeClip (UTC LocalTZA
               (MakeDate
                  (MakeDay (YearFromTime (LocalTime LocalTZA t))
                     (MonthFromTime (LocalTime LocalTZA t)
                        * 10 ^ Z.of_nat (String.length (intToString n)) + n)
                     (DateFromTime (LocalTime LocalTZA t)))
                  (TimeWithinDay (LocalTime LocalTZA t))))).
Proof.
  intros Hc Hpresent Hdate Hdur Hn Hbound.
  pose proof (fields_valid (LocalTime LocalTZA t)) as [Hm _].
  set (m := MonthFromTime (LocalTime LocalTZA t)) in *.
  assert (Hp : 0 <= 10 ^ Z.of_nat (String.length (intToString n)))
    by (apply Z.pow_nonneg; lia).
  apply calcular_month; try done.
  - rewrite Hdur. simpl. apply negb_true_iff, String.eqb_neq.
    destruct (intToString_value n Hn) as (cs & -> & Hne & _). by destruct cs.
  - rewrite Hdur. fold m. unfold plusToNumber, monthToString.
    rewrite (holds_truncate _ _ (holds_of_Z m ltac:(lia))).
    rewrite StringToNumber_two_integers by lia.
    apply holds_truncate, holds_of_Z. nia.
Qed.


Lemma DaysInMonth_other_year (y y' m : Z) :
  0 <= m <= 11 -> m <> 1 -> DaysInMonth y' m = DaysInMonth y m.
Proof.
  intros Hm Hfeb.
  assert (m = 0 \/ m = 2 \/ m = 3 \/ m = 4 \/ m = 5 \/ m = 6
          \/ m = 7 \/ m = 8 \/ m = 9 \/ m = 10 \/ m = 11) as Hcases by lia.
  unfold DaysInMonth.
  destruct (isLeapYear y), (isLeapYear y');
    repeat destruct Hcases as [->|Hcases]; try subst m; reflexivity.
Qed.

Lemma DaysInMonth_february (y : Z) :
  DaysInMonth y 1 = if isLeapYear y then 29 else 28.
Proof. unfold DaysInMonth. by destruct (isLeapYear y). Qed.

(** X13: a duration of whole years, a multiple of twelve months, ends on the
    same day and month, that many years later, at the same time of day;
    only 29 February, when the year it lands in is no leap year, becomes
    1 March. *)
Theorem calcular_whole_years (st : state) (c : control) (t k : Z) :
  controls (produtoForm st) !! "dataFimGarantia" = Some c ->
  ToBoolean (prop (value (produtoForm st)) "dataCompra") = true ->
  dateOf (store st) (prop (value (produtoForm st)) "dataCompra") = Some t ->
  prop (value (produtoForm st)) "duracaoGarantiaMeses"
    = VNumber (of_Z (12 * k)) ->
  k <> 0 -> Z.abs (12 * k) <= 2 ^ 52 ->
  exists lt' : Z,
    (YearFromTime lt', MonthFromTime lt', DateFromTime lt')
      = (if (MonthFromTime (LocalTime LocalTZA t) =? 1)
            && (DateFromTime (LocalTime LocalTZA t) =? 29)
            && negb (isLeapYear (YearFromTime (LocalTime LocalTZA t) + k))
         then (YearFromTime (LocalTime LocalTZA t) + k, 2, 1)
         else (YearFromTime (LocalTime LocalTZA t) + k,
               MonthFromTime (LocalTime LocalTZA t),
               DateFromTime (LocalTime LocalTZA t)))
    /\ TimeWithinDay lt' = TimeWithinDay (LocalTime LocalTZA t)
    /\ store (calcular st) !! length (store st)
       = Some (TimeClip (UTC LocalTZA lt')).
Proof.
  intros Hc Hpresent Hdate Hdur Hk Hbound.
  set (lt := LocalTime LocalTZA t) in *.
  pose proof (fields_valid lt) as [Hm Hd].
  destruct (setMonth_advanceMonths LocalTZA lt (12 * k)) as [Hfields Htod].
  eexists. split; [|split; [exact Htod|]].
  - rewrite Hfields. unfold advanceMonths.
    replace ((MonthFromTime lt + 12 * k) / 12) with k by divmod.
    replace ((MonthFromTime lt + 12 * k) mod 12) with (MonthFromTime lt)
      by divmod.
    destruct (Z.eqb_spec (MonthFromTime lt) 1) as [Hfeb|Hfeb]; simpl.
    + rewrite Hfeb in *. rewrite DaysInMonth_february in *.
      destruct (isLeapYear (YearFromTime lt + k)); simpl.
      * rewrite andb_false_r.
        destruct (Z.leb_spec (DateFromTime lt) 29); [done|].
        destruct (isLeapYear (YearFromTime lt)); lia.
      * rewrite andb_true_r.
        destruct (Z.eqb_spec (DateFromTime lt) 29) as [->|Hne]; [done|].
        destruct (Z.leb_spec (DateFromTime lt) 28); [done|].
        destruct (isLeapYear (YearFromTime lt)); lia.
    + rewrite (DaysInMonth_other_year (YearFromTime lt)) by done.
      destruct (Z.leb_spec (DateFromTime lt)
                  (DaysInMonth (YearFromTime lt) (MonthFromTime lt))); [done|lia].
  - apply (calcular_month st c t (MonthFromTime lt + 12 * k)); try done.
    + rewrite Hdur. apply ToBoolean_of_Z; lia.
    + rewrite Hdur. simpl. fold lt.
      apply holds_truncate, holds_add; [apply holds_of_Z|apply holds_of_Z|]; lia.
Qed.

End Months.

Lemma calcular_text_duration_witness :
  controls (produtoForm (calcularDataFimGarantia utcZone isoOnly
              (fillIn initialForm (VString "2024-02-15") (VString "12"))))
    !! "dataFimGarantia" = Some (Control (VDate 0) true)
  /\ store (calcularDataFimGarantia utcZone isoOnly
              (fillIn initialForm (VString "2024-02-15") (VString "12")))
       !! 0%nat
     = Some (newDateValue utcZone isoOnly [] (VString "2033-05-15")).
Proof.
  apply (calcular_text_duration utcZone isoOnly
           (fillIn initialForm (VString "2024-02-15") (VString "12"))
           (Control (VString "") true) 1707955200000 12);
    [reflexivity | reflexivity | reflexivity | reflexivity | lia
     | vm_compute; reflexivity].
Defined.

Lemma calcular_whole_years_witness :
  exists lt' : Z,
    (YearFromTime lt', MonthFromTime lt', DateFromTime lt') = (2025, 2, 1)
    /\ TimeWithinDay lt' = 0
    /\ store (calcularDataFimGarantia utcZone isoOnly
                (fillIn initialForm (VString "2024-02-29") (VNumber (of_Z 12))))
         !! 0%nat
       = Some (TimeClip (UTC utcZone lt')).
Proof.
  apply (calcular_whole_years utcZone isoOnly
           (fillIn initialForm (VString "2024-02-29") (VNumber (of_Z 12)))
           (Control (VString "") true) 1709164800000 1);
    [reflexivity | reflexivity | reflexivity | reflexivity | lia | simpl; lia].
Defined.

Section Invalid.

Variable LocalTZA : Z -> bool -> Z.
Variable fallbackDateParse : string -> option Z.

Local Abbreviation calcular := (calcularDataFimGarantia LocalTZA fallbackDateParse).
Local Abbreviation dateOf := (newDateValue LocalTZA fallbackDateParse).

(** X14: the guard lets through what is present but not valid: with a
    purchase date that is no date, or a duration that makes no finite
    month, the calculation still runs and puts an invalid Date in
    [dataFimGarantia]. *)
Theorem calcular_invalid_input (st : state) (c : control) :
  controls (produtoForm st) !! "dataFimGarantia" = Some c ->
  ToBoolean (prop (value (produtoForm st)) "dataCompra") = true ->
  ToBoolean (prop (value (produtoForm st)) "duracaoGarantiaMeses") = true ->
  (forall t : Z,
     dateOf (store st) (prop (value (produtoForm st)) "dataCompra") = Some t ->
     truncate (plusToNumber (store st ++ [Some t])
                 (of_Z (MonthFromTime (LocalTime LocalTZA t)))
                 (prop (value (produtoForm st)) "duracaoGarantiaMeses"))
       = None) ->
  controls (produtoForm (calcular st)) !! "dataFimGarantia"
    = Some (Control (VDate (length (store st))) (cdisabled c))
  /\ store (calcular st) !! length (store st) = Some None.
Proof.
  intros Hc Hpresent Hdur Hbad.
  unfold calcularDataFimGarantia. rewrite Hpresent, Hdur. simpl.
  split; [apply patchValue_control; [apply lookup_singleton_eq|done]|].
  unfold setMonth, getMonth, dateValue.
  rewrite lookup_app_r, Nat.sub_diag by lia. simpl.
  destruct (dateOf (store st) (prop (value (produtoForm st)) "dataCompra"))
    as [t|] eqn:Hdate.
  - rewrite list_lookup_insert_eq by (rewrite length_app; simpl; lia).
    unfold setMonthValue. by rewrite (Hbad t eq_refl).
  - by rewrite lookup_app_r, Nat.sub_diag by lia.
Qed.

End Invalid.

Lemma calcular_invalid_input_witness :
  (controls (produtoForm (calcularDataFimGarantia utcZone isoOnly
               (fillIn initialForm (VString "abc") (VNumber (of_Z 12)))))
     !! "dataFimGarantia" = Some (Control (VDate 0) true)
   /\ store (calcularDataFimGarantia utcZone isoOnly
               (fillIn initialForm (VString "abc") (VNumber (of_Z 12))))
        !! 0%nat = Some None)
  /\ (controls (produtoForm (calcularDataFimGarantia utcZone isoOnly
                  (fillIn initialForm (VString "2024-01-15") (VString "abc"))))
        !! "dataFimGarantia" = Some (Control (VDate 0) true)
      /\ store (calcularDataFimGarantia utcZone isoOnly
                  (fillIn initialForm (VString "2024-01-15") (VString "abc")))
           !! 0%nat = Some None).
Proof.
  split.
  - apply (calcular_invalid_input utcZone isoOnly
             (fillIn initialForm (VString "abc") (VNumber (of_Z 12)))
             (Control (VString "") true));
      [reflexivity | reflexivity | reflexivity |].
    intros t Ht. vm_compute in Ht. discriminate.
  - apply (calcular_invalid_input utcZone isoOnly
             (fillIn initialForm (VString "2024-01-15") (VString "abc"))
             (Control (VString "") true));
      [reflexivity | reflexivity | reflexivity |].
    intros t Ht. vm_compute in Ht. injection Ht as <-. reflexivity.
Defined.
